(** * The dual-mode data-access layer of the task/user server

    A shallow embedding of [src/db.ts], of the request handlers of
    [src/server.ts] and of the Task model, with the MongoDB driver
    (Mongoose) modelled as an explicit store and a set of oracles
    for what the outside world answers (clock readings, driver failures). *)

From Stdlib Require Import ZArith NArith List String Ascii Bool Lia DecimalString.
From Stdlib Require Import Sorted Permutation.
Import ListNotations.

#[local] Set Warnings "-register-all".
Local Open Scope string_scope.
Local Open Scope Z_scope.

(* ===================================================================== *)
(** ** JavaScript values *)
(* ===================================================================== *)

Module Js.

(** A JavaScript string is a sequence of UTF-16 code units. *)
Definition code_unit := N.
Definition jsstring := list code_unit.

(** A source literal made of ASCII characters only. *)
Fixpoint lit (s : string) : jsstring :=
  match s with
  | EmptyString => []
  | String a r => N_of_ascii a :: lit r
  end.

(** ECMAScript [WhiteSpace]: TAB, VT, FF, SP, NBSP, ZWNBSP and the
    Unicode space separators. *)
Definition isWhiteSpace (c : code_unit) : bool :=
  ((c =? 0x9) || (c =? 0xB) || (c =? 0xC) || (c =? 0x20) || (c =? 0xA0)
   || (c =? 0xFEFF) || (c =? 0x1680)
   || ((0x2000 <=? c) && (c <=? 0x200A))
   || (c =? 0x202F) || (c =? 0x205F) || (c =? 0x3000))%N.

(** ECMAScript [LineTerminator]: LF, CR, LS, PS. *)
Definition isLineTerminator (c : code_unit) : bool :=
  ((c =? 0xA) || (c =? 0xD) || (c =? 0x2028) || (c =? 0x2029))%N.

(** What [String.prototype.trim] strips at both ends. *)
Definition isTrimmable (c : code_unit) : bool :=
  isWhiteSpace c || isLineTerminator c.

Fixpoint trimStart (s : jsstring) : jsstring :=
  match s with
  | [] => []
  | c :: r => if isTrimmable c then trimStart r else s
  end.

Definition trimEnd (s : jsstring) : jsstring := rev (trimStart (rev s)).

(** [s.trim()] *)
Definition trim (s : jsstring) : jsstring := trimEnd (trimStart s).
Arguments trim : simpl never.

Fixpoint jsstring_eqb (a b : jsstring) : bool :=
  match a, b with
  | [], [] => true
  | x :: a', y :: b' => (x =? y)%N && jsstring_eqb a' b'
  | _, _ => false
  end.

(** The values a parsed request body holds ([express.json],
    [express.urlencoded]); [JUndefined] is what reading an absent
    property gives.  Numbers are modelled by the integers: every handler
    only tests a number for truthiness or for having a [trim] method, and
    a non-integer number behaves there like any non-zero one. *)
Inductive json : Type :=
| JUndefined
| JNull
| JBool (b : bool)
| JNum (n : Z)
| JStr (s : jsstring)
| JArr (items : list json)
| JObj (fields : list (string * json)).

(** ToBoolean. *)
Definition truthy (v : json) : bool :=
  match v with
  | JUndefined | JNull => false
  | JBool b => b
  | JNum n => negb (n =? 0)
  | JStr s => match s with [] => false | _ => true end
  | JArr _ | JObj _ => true
  end.

(** The values handed to [res.json]: request values echoed back,
    [Date] objects, the string [new Date(ms).toISOString()] (kept
    symbolic as the instant it renders), ObjectIds, arrays and objects
    with their keys in insertion order. *)
Inductive payload : Type :=
| PJson (j : json)
| PDate (ms : Z)
| PIsoString (ms : Z)
| POid (n : N)
| PArr (items : list payload)
| PObj (fields : list (string * payload)).

Definition pstr (s : string) : payload := PJson (JStr (lit s)).
Definition pnum (n : Z) : payload := PJson (JNum n).
Definition pbool (b : bool) : payload := PJson (JBool b).
Definition pnull : payload := PJson JNull.

(** Own-property lookup, first binding of the key. *)
Fixpoint assoc {A : Type} (k : string) (l : list (string * A)) : option A :=
  match l with
  | [] => None
  | (k', v) :: r => if String.eqb k k' then Some v else assoc k r
  end.

(** [body.k] for a parsed body: [undefined] when the key is absent or
    the body is not an object with that own property. *)
Definition prop (k : string) (body : json) : json :=
  match body with
  | JObj fields => match assoc k fields with Some v => v | None => JUndefined end
  | _ => JUndefined
  end.

(** [o.k] of a response payload object. *)
Definition field (k : string) (p : payload) : option payload :=
  match p with
  | PObj fields => assoc k fields
  | _ => None
  end.

Definition keys (p : payload) : list string :=
  match p with
  | PObj fields => map fst fields
  | _ => []
  end.

(** What can be thrown or make a promise reject. *)
Inductive error : Type :=
| TypeError        (* calling something that is not a function *)
| CastError        (* Mongoose: a value does not cast to the path's type *)
| ValidationError  (* Mongoose: a schema validator failed *)
| StoreError       (* the driver failed while reading or writing *)
| ConnectError     (* the connection attempt failed *)
| MisuseError.     (* openUri on an active connection *)

Inductive outcome (A : Type) : Type :=
| Return (a : A)
| Throw (e : error).
Arguments Return {A} a.
Arguments Throw {A} e.

(** [v.trim()]: only strings have the method; calling it on any other
    truthy value is a TypeError ([undefined] and [null] throw as well). *)
Definition call_trim (v : json) : outcome json :=
  match v with
  | JStr s => Return (JStr (trim s))
  | _ => Throw TypeError
  end.

End Js.
Import Js.

(* ===================================================================== *)
(** ** The driver: connection, collections, effects *)
(* ===================================================================== *)

Module Mongoose.

(** [mongoose.connection]: [readyState] is 0 disconnected, 1 connected,
    2 connecting, 3 disconnecting (99 before initialisation); [host]
    and [port] are [undefined] until a connection is established. *)
Record connection : Type := {
  readyState : Z;
  host : option jsstring;
  port : option Z
}.

(** A stored Task document, as the schema of the Task model shapes it:
    [title] (String, required, trim), [completed] (Boolean, default
    false), and [createdAt]/[updatedAt] from [timestamps: true]; [_id]
    and the version key [__v] are added by Mongoose. *)
Record task_doc : Type := {
  t_id : N;
  t_title : jsstring;
  t_completed : bool;
  t_createdAt : Z;
  t_updatedAt : Z;
  t_v : Z
}.

(** Modelled from the spec: the User model ([./models/user], imported by
    the server, is not among the sources).  The spec gives a User an
    id, a non-empty [name], a non-empty [email] and a [createdAt]
    timestamp, with uniqueness of [email] checked by lookup before
    insert and not by a storage constraint; [__v] is the internal
    versioning field the list handler strips. *)
Record user_doc : Type := {
  u_id : N;
  u_name : jsstring;
  u_email : jsstring;
  u_createdAt : Z;
  u_v : Z
}.

Inductive level : Type := LogLevel | WarnLevel | ErrorLevel.

(** The pieces of a console line: literal text (its ASCII part: the
    pictographs are left out and the dash is a hyphen), an interpolated
    string, a caught error. *)
Inductive log_arg : Type :=
| Text (s : string)
| Interp (s : option jsstring)
| Caught (e : error).

(** Observable effects, newest first: console output and the calls made
    into the driver (a model operation counts from the moment it is
    called, before its casts and validators run). *)
Inductive event : Type :=
| Console (l : level) (line : list log_arg)
| Driver (op : string).

(** The process-wide state: the one connection object, the two
    collections in natural (insertion) order, the ObjectId supply and
    the effects so far. *)
Record world : Type := {
  conn : connection;
  tasks : list task_doc;
  users : list user_doc;
  next_oid : N;
  trace : list event
}.

(** What the outside answers during one request: the clock readings of
    [Date.now()] and of [new Date()] (Mongoose's timestamps read the
    latter), and whether the driver's reads and writes succeed. *)
Record io : Type := {
  date_now : Z;
  new_date : Z;
  read_ok : bool;
  write_ok : bool
}.

(** Computations that read and update the world and may throw. *)
Definition M (A : Type) : Type := world -> world * outcome A.

Definition ret {A : Type} (a : A) : M A := fun w => (w, Return a).
Definition throw {A : Type} (e : error) : M A := fun w => (w, Throw e).
Definition bind {A B : Type} (m : M A) (k : A -> M B) : M B :=
  fun w => match m w with
           | (w', Return a) => k a w'
           | (w', Throw e) => (w', Throw e)
           end.
(** [try { m } catch (err) { h err }] *)
Definition try_catch {A : Type} (m : M A) (h : error -> M A) : M A :=
  fun w => match m w with
           | (w', Return a) => (w', Return a)
           | (w', Throw e) => h e w'
           end.
Definition lift {A : Type} (o : outcome A) : M A := fun w => (w, o).
Definition emit (e : event) : M unit :=
  fun w => ({| conn := conn w; tasks := tasks w; users := users w;
               next_oid := next_oid w; trace := e :: trace w |}, Return tt).
Definition console (l : level) (line : list log_arg) : M unit :=
  emit (Console l line).
Definition read_conn : M connection := fun w => (w, Return (conn w)).

Declare Scope js_scope.
Delimit Scope js_scope with js.
Notation "x <- m ;; k" := (bind m (fun x => k))
  (at level 100, m at next level, right associativity) : js_scope.
Notation "m ;;; k" := (bind m (fun _ => k))
  (at level 100, right associativity) : js_scope.

(** *** Connecting *)

(** What a connection attempt meets: success against a server at
    [host:port]; a failed attempt (timeout, authentication, network,
    unparsable URI); or a call refused because the connection is
    already active under another connection string. *)
Inductive connect_reply : Type :=
| ConnectOk (h : jsstring) (p : Z)
| ConnectFailed
| ConnectRefused.

(** [mongoose.ConnectOptions], for the options the program sets: the two
    bounds are in milliseconds, and which of them expires is part of what
    the attempt meets. *)
Record connect_options : Type := {
  serverSelectionTimeoutMS : Z;
  socketTimeoutMS : Z;
  family : Z
}.

Definition set_conn (c : connection) : M unit :=
  fun w => ({| conn := c; tasks := tasks w; users := users w;
               next_oid := next_oid w; trace := trace w |}, Return tt).

(** [mongoose.connect(uri, options)]: a successful attempt leaves the
    connection connected with the server's host and port; a failed
    attempt leaves it disconnected and rejects; a refused call rejects
    without touching the connection. *)
Definition connect (uri : jsstring) (options : connect_options)
           (reply : connect_reply) : M connection :=
  (emit (Driver "connect") ;;;
   c <- read_conn ;;
   match reply with
   | ConnectOk h p =>
       let c' := {| readyState := 1; host := Some h; port := Some p |} in
       set_conn c' ;;; ret c'
   | ConnectFailed =>
       set_conn {| readyState := 0; host := host c; port := port c |} ;;;
       throw ConnectError
   | ConnectRefused => throw MisuseError
   end)%js.

(** *** Casting *)

Definition decimal (n : Z) : jsstring :=
  lit (DecimalString.NilZero.string_of_int (Z.to_int n)).

(** Mongoose's cast to a String path: strings are kept, numbers and
    booleans are rendered by [toString], [null] and [undefined] stay
    empty ([None]) and arrays and plain objects do not cast.  (An object
    of query operators is not interpreted: it is rejected like any other
    object.) *)
Definition castString (v : json) : outcome (option jsstring) :=
  match v with
  | JUndefined | JNull => Return None
  | JStr s => Return (Some s)
  | JNum n => Return (Some (decimal n))
  | JBool b => Return (Some (lit (if b then "true" else "false")))
  | JArr _ | JObj _ => Throw CastError
  end.

(** The [required] validator of a String path: present and of non-zero
    length. *)
Definition required (s : option jsstring) : outcome jsstring :=
  match s with
  | Some (c :: r) => Return (c :: r)
  | _ => Throw ValidationError
  end.

(** *** The Task collection *)

Definition fresh_oid : M N :=
  fun w => ({| conn := conn w; tasks := tasks w; users := users w;
               next_oid := N.succ (next_oid w); trace := trace w |},
            Return (next_oid w)).

Definition insert_task (d : task_doc) : M unit :=
  fun w => ({| conn := conn w; tasks := tasks w ++ [d]; users := users w;
               next_oid := next_oid w; trace := trace w |}, Return tt).

Definition insert_user (d : user_doc) : M unit :=
  fun w => ({| conn := conn w; tasks := tasks w; users := users w ++ [d];
               next_oid := next_oid w; trace := trace w |}, Return tt).

(** [TaskModel.create({ title, completed })], the boolean being the
    literal the call site passes: the title is cast, trimmed by the
    schema's [trim: true] and checked by [required]; the document gets a
    fresh [_id], both timestamps from one clock reading and version 0,
    and is written through the driver. *)
Definition TaskModel_create (o : io) (title : json) (completed : bool)
  : M task_doc :=
  (emit (Driver "Task.create") ;;;
   s <- lift (castString title) ;;
   t <- lift (required (option_map trim s)) ;;
   id <- fresh_oid ;;
   let d := {| t_id := id; t_title := t; t_completed := completed;
               t_createdAt := new_date o; t_updatedAt := new_date o;
               t_v := 0 |} in
   if write_ok o then insert_task d ;;; ret d else throw StoreError)%js.

(** [sort({ createdAt: -1 })]: descending by creation time; documents
    with equal times keep their natural order. *)
Fixpoint insert_desc (d : task_doc) (l : list task_doc) : list task_doc :=
  match l with
  | [] => [d]
  | x :: r => if t_createdAt d <? t_createdAt x then x :: insert_desc d r
              else d :: l
  end.

Fixpoint sort_desc (l : list task_doc) : list task_doc :=
  match l with
  | [] => []
  | x :: r => insert_desc x (sort_desc r)
  end.

(** The plain object [lean()] gives for a Task document. *)
Definition task_object (d : task_doc) : payload :=
  PObj [ ("_id", POid (t_id d));
         ("title", PJson (JStr (t_title d)));
         ("completed", pbool (t_completed d));
         ("createdAt", PDate (t_createdAt d));
         ("updatedAt", PDate (t_updatedAt d));
         ("__v", pnum (t_v d)) ].

(** [TaskModel.find().sort({ createdAt: -1 }).lean()] *)
Definition TaskModel_find_sorted (o : io) : M (list payload) :=
  (emit (Driver "Task.find") ;;;
   if read_ok o
   then (fun w => (w, Return (map task_object (sort_desc (tasks w)))))
   else throw StoreError)%js.

(** *** The User collection *)

(** Modelled from the spec: the plain object [lean()] gives for a User
    document, with the fields the spec's data model lists and the
    version key. *)
Definition user_object (d : user_doc) : payload :=
  PObj [ ("_id", POid (u_id d));
         ("name", PJson (JStr (u_name d)));
         ("email", PJson (JStr (u_email d)));
         ("createdAt", PDate (u_createdAt d));
         ("__v", pnum (u_v d)) ].

(** [select('-k')]: the projection that drops one key. *)
Definition select_exclude (k : string) (p : payload) : payload :=
  match p with
  | PObj fields => PObj (filter (fun kv => negb (String.eqb (fst kv) k)) fields)
  | _ => p
  end.

(** [UserModel.find().select('-__v').lean()] *)
Definition UserModel_find_select (o : io) (excluded : string) : M (list payload) :=
  (emit (Driver "User.find") ;;;
   if read_ok o
   then (fun w => (w, Return (map (fun d => select_exclude excluded (user_object d))
                                  (users w))))
   else throw StoreError)%js.

(** [UserModel.findOne({ email }).lean()]: the first document, in natural
    order, whose email equals the cast value ([None], that is [null],
    when there is none; every stored user has an email, so an empty
    filter value matches nothing). *)
Definition UserModel_findOne_email (o : io) (email : json) : M (option user_doc) :=
  (emit (Driver "User.findOne") ;;;
   e <- lift (castString email) ;;
   if read_ok o
   then (fun w => (w, Return
           match e with
           | Some s => find (fun d => jsstring_eqb (u_email d) s) (users w)
           | None => None
           end))
   else throw StoreError)%js.

(** Modelled from the spec: [UserModel.create({ name, email })] for a
    schema whose [name] and [email] are required strings (the spec asks
    for non-empty values and names no trimming and no unique index); the
    document gets a fresh [_id], its creation time and version 0. *)
Definition UserModel_create (o : io) (name email : json) : M user_doc :=
  (emit (Driver "User.create") ;;;
   n <- lift (castString name) ;;
   e <- lift (castString email) ;;
   n' <- lift (required n) ;;
   e' <- lift (required e) ;;
   id <- fresh_oid ;;
   let d := {| u_id := id; u_name := n'; u_email := e';
               u_createdAt := new_date o; u_v := 0 |} in
   if write_ok o then insert_user d ;;; ret d else throw StoreError)%js.

End Mongoose.
Import Mongoose.

(* ===================================================================== *)
(** ** db.ts: the connection manager *)
(* ===================================================================== *)

Module Db.

(** [process.env] after [dotenv.config()], for the variables read. *)
Record env : Type := {
  env_MONGO_URI : option jsstring;
  env_DATABASE_URL : option jsstring;
  env_NODE_ENV : option jsstring
}.

Definition DEFAULT_OPTIONS : connect_options :=
  {| serverSelectionTimeoutMS := 5000; socketTimeoutMS := 45000; family := 4 |}.

(** [a || b] on possibly absent strings: [a] when it is a non-empty
    string, [b] otherwise. *)
Definition or_str (a : option jsstring) (b : jsstring) : jsstring :=
  match a with
  | Some (c :: r) => c :: r
  | _ => b
  end.

(** [const MONGO_URI = process.env.MONGO_URI || process.env.DATABASE_URL || ''] *)
Definition MONGO_URI (e : env) : jsstring :=
  or_str (env_MONGO_URI e) (or_str (env_DATABASE_URL e) []).

(** What [connectDB] resolves with: the [mongoose] module or [null]. *)
Inductive mongoose_module : Type := TheMongoose.

Definition connectDB (e : env) (mongoUri : option jsstring)
           (reply : connect_reply) : M (option mongoose_module) :=
  (let uri := or_str mongoUri (MONGO_URI e) in
   match uri with
   | [] =>
       console WarnLevel
         [Text "MONGO_URI not set - skipping DB connection (fallback mode)"] ;;;
       ret None
   | _ =>
       try_catch
         (c <- connect uri DEFAULT_OPTIONS reply ;;
          console LogLevel [Text "Connected to MongoDB: "; Interp (host c)] ;;;
          ret (Some TheMongoose))
         (fun err =>
            console ErrorLevel [Text "Failed to connect to MongoDB:"; Caught err] ;;;
            ret None)
   end)%js.

Definition stateMap (readyState : Z) : option string :=
  match readyState with
  | 0 => Some "disconnected"
  | 1 => Some "connected"
  | 2 => Some "connecting"
  | 3 => Some "disconnecting"
  | _ => None
  end.

(** [stateMap[readyState] || 'unknown'] *)
Definition state_name (readyState : Z) : string :=
  match stateMap readyState with
  | Some s => s
  | None => "unknown"
  end.

(** The object [getDBState] builds from the connection it reads. *)
Definition db_state (c : connection) : payload :=
  PObj [ ("readyState", pnum (readyState c));
         ("state", pstr (state_name (readyState c)));
         ("host", match host c with
                  | Some (x :: r) => PJson (JStr (x :: r))
                  | _ => pnull
                  end);
         ("port", match port c with
                  | Some p => if p =? 0 then pnull else pnum p
                  | None => pnull
                  end) ].

Definition getDBState : M payload :=
  (c <- read_conn ;; ret (db_state c))%js.

End Db.
Import Db.

(* ===================================================================== *)
(** ** server.ts: the request handlers *)
(* ===================================================================== *)

Module Server.

Record response : Type := { status : Z; body : payload }.

(** [res.status(n).json(p)] *)
Definition status_json (n : Z) (p : payload) : M response :=
  ret {| status := n; body := p |}.
(** [res.json(p)] *)
Definition json_ (p : payload) : M response := status_json 200 p.

Definition error_body (msg : string) : payload := PObj [("error", pstr msg)].

(** [p.state === 'connected'] *)
Definition state_is (p : payload) (s : string) : bool :=
  match field "state" p with
  | Some (PJson (JStr x)) => jsstring_eqb x (lit s)
  | _ => false
  end.

(** [app.get('/api/health')] *)
Definition get_health (e : env) (o : io) : M response :=
  (db <- getDBState ;;
   json_ (PObj [ ("status", pstr "OK");
                 ("message", pstr "Server is running!");
                 ("timestamp", PIsoString (new_date o));
                 ("environment",
                  PJson (JStr (or_str (env_NODE_ENV e) (lit "development"))));
                 ("db", db) ]))%js.

Definition sample_users : list payload :=
  [ PObj [("id", pnum 1); ("name", pstr "John Doe"); ("email", pstr "john@example.com")];
    PObj [("id", pnum 2); ("name", pstr "Jane Smith"); ("email", pstr "jane@example.com")];
    PObj [("id", pnum 3); ("name", pstr "Bob Johnson"); ("email", pstr "bob@example.com")] ].

(** [app.get('/api/users')] *)
Definition get_users (o : io) : M response :=
  try_catch
    (db <- getDBState ;;
     if state_is db "connected"
     then users <- UserModel_find_select o "__v" ;; json_ (PArr users)
     else json_ (PArr sample_users))%js
    (fun err =>
       console ErrorLevel [Text "Error fetching users:"; Caught err] ;;;
       status_json 500 (error_body "Failed to fetch users"))%js.

Definition mock_tasks : list payload :=
  [ PObj [("title", pstr "Define TypeScript interfaces (Mock)"); ("completed", pbool true)];
    PObj [("title", pstr "Create React components (Mock)"); ("completed", pbool false)] ].

(** [app.get('/api/tasks')] *)
Definition get_tasks (o : io) : M response :=
  try_catch
    (db <- getDBState ;;
     if state_is db "connected"
     then tasks <- TaskModel_find_sorted o ;; json_ (PArr tasks)
     else json_ (PArr mock_tasks))%js
    (fun err =>
       console ErrorLevel [Text "Error fetching tasks:"; Caught err] ;;;
       status_json 500 (error_body "Failed to fetch tasks"))%js.

(** [app.post('/api/tasks')].  The test [!title || !title.trim()] runs
    before the [try]: a truthy title without a [trim] method makes the
    handler's promise reject with nothing sent. *)
Definition post_tasks (o : io) (req_body : json) : M response :=
  (let title := prop "title" req_body in
   if negb (truthy title) then status_json 400 (error_body "Title required")
   else
     trimmed <- lift (call_trim title) ;;
     if negb (truthy trimmed) then status_json 400 (error_body "Title required")
     else
       try_catch
         (db <- getDBState ;;
          if state_is db "connected"
          then created <- TaskModel_create o title false ;;
               status_json 201 (task_object created)
          else status_json 201
                 (PObj [("title", PJson title); ("completed", pbool false)]))
         (fun err =>
            console ErrorLevel [Text "Error creating task:"; Caught err] ;;;
            status_json 500 (error_body "Failed to create task")))%js.

(** [app.post('/api/users')] *)
Definition post_users (o : io) (req_body : json) : M response :=
  (let name := prop "name" req_body in
   let email := prop "email" req_body in
   if negb (truthy name) || negb (truthy email)
   then status_json 400 (error_body "Name and email are required")
   else
     try_catch
       (db <- getDBState ;;
        if state_is db "connected"
        then
          existing <- UserModel_findOne_email o email ;;
          match existing with
          | Some _ => status_json 409 (error_body "User already exists")
          | None =>
              created <- UserModel_create o name email ;;
              status_json 201
                (PObj [ ("id", POid (u_id created));
                        ("name", PJson (JStr (u_name created)));
                        ("email", PJson (JStr (u_email created)));
                        ("createdAt", PDate (u_createdAt created)) ])
          end
        else
          status_json 201
            (PObj [ ("id", pnum (date_now o));
                    ("name", PJson name);
                    ("email", PJson email);
                    ("createdAt", PIsoString (new_date o)) ]))
       (fun err =>
          console ErrorLevel [Text "Error creating user:"; Caught err] ;;;
          status_json 500 (error_body "Failed to create user")))%js.

(** The API routes. *)
Inductive request : Type :=
| GetHealth
| GetUsers
| GetTasks
| PostTasks (req_body : json)
| PostUsers (req_body : json).

Definition handle (e : env) (o : io) (r : request) : M response :=
  match r with
  | GetHealth => get_health e o
  | GetUsers => get_users o
  | GetTasks => get_tasks o
  | PostTasks b => post_tasks o b
  | PostUsers b => post_users o b
  end.

(** The world after serving a sequence of requests one after the other,
    each with its own answers from the outside. *)
Fixpoint serve (e : env) (rs : list (io * request)) (w : world) : world :=
  match rs with
  | [] => w
  | (o, r) :: rest => serve e rest (fst (handle e o r w))
  end.

(** Whether a handler serving a request in this world takes the
    persistent branch: [getDBState().state === 'connected']. *)
Definition connected (w : world) : bool :=
  String.eqb (state_name (readyState (conn w))) "connected".

(** The connection object of a process that has not connected yet. *)
Definition idle_connection : connection :=
  {| readyState := 0; host := None; port := None |}.

(** [connectDB().then(() => app.listen(...))]: the world in which the
    first request is served. *)
Definition startup (e : env) (reply : connect_reply) (w : world) : world :=
  fst (connectDB e None reply w).

End Server.
Import Server.

(* ===================================================================== *)
(** ** Properties of requests and responses, sample worlds *)
(* ===================================================================== *)

(** The connection is written by [connect] alone: a computation keeps it
    when the connection after it is the connection before it. *)
Definition keeps_conn {A : Type} (m : M A) : Prop :=
  forall w, conn (fst (m w)) = conn w.

(** A title that is absent, empty or made of white space only. *)
Definition blank_title (v : json) : Prop :=
  v = JUndefined \/ exists s, v = JStr s /\ forallb isTrimmable s = true.

(** The outcome is a 200 whose body is a non-empty array with [title] as
    the title of its first element. *)
Definition lists_first (title : jsstring) (r : world * outcome response) : Prop :=
  exists first rest,
    snd r = Return {| status := 200; body := PArr (first :: rest) |}
    /\ field "title" first = Some (PJson (JStr title)).

(** The object the fallback branch of the user create sends. *)
Definition fallback_user (o : io) (b : json) : payload :=
  PObj [ ("id", pnum (date_now o));
         ("name", PJson (prop "name" b));
         ("email", PJson (prop "email" b));
         ("createdAt", PIsoString (new_date o)) ].

(** The object the fallback branch of the task create sends. *)
Definition fallback_task (b : json) : payload :=
  PObj [ ("title", PJson (prop "title" b)); ("completed", pbool false) ].

(** The user create answers 400 without touching anything. *)
Definition rejects_user (o : io) (b : json) (w : world) : Prop :=
  post_users o b w
  = (w, Return {| status := 400;
                  body := PObj [("error", pstr "Name and email are required")] |}).

(** The entity carries an id and a timestamp. *)
Definition has_id_and_timestamp (p : payload) : Prop :=
  (field "id" p <> None \/ field "_id" p <> None) /\ field "createdAt" p <> None.

(** No URI from the override argument nor from the environment. *)
Definition no_uri (e : env) (mongoUri : option jsstring) : Prop :=
  or_str mongoUri (MONGO_URI e) = [].

(** [r.db.k] of a health response. *)
Definition db_field (k : string) (r : outcome response) : option payload :=
  match r with
  | Return r =>
      match field "db" (body r) with
      | Some db => field k db
      | None => None
      end
  | Throw _ => None
  end.

(** Descending creation time. *)
Definition newer_or_equal (a b : task_doc) : Prop := t_createdAt b <= t_createdAt a.

(** A process that never connected, with empty collections. *)
Definition w_idle : world :=
  {| conn := idle_connection; tasks := []; users := []; next_oid := 0; trace := [] |}.

(** A connected process with one task and one user stored. *)
Definition w_live : world :=
  {| conn := {| readyState := 1; host := Some (lit "localhost"); port := Some 27017 |};
     tasks := [ {| t_id := 1; t_title := lit "older"; t_completed := true;
                   t_createdAt := 50; t_updatedAt := 60; t_v := 0 |} ];
     users := [ {| u_id := 2; u_name := lit "Ann"; u_email := lit "ann@example.com";
                   u_createdAt := 40; u_v := 0 |} ];
     next_oid := 3; trace := [] |}.

(** A request during which the driver works. *)
Definition o_ok : io :=
  {| date_now := 100; new_date := 101; read_ok := true; write_ok := true |}.

(** An environment with no database URI. *)
Definition env_none : env :=
  {| env_MONGO_URI := None; env_DATABASE_URL := None; env_NODE_ENV := None |}.

Definition body_title (s : string) : json := JObj [("title", JStr (lit s))].

Definition body_user (name email : string) : json :=
  JObj [("name", JStr (lit name)); ("email", JStr (lit email))].

(* ===================================================================== *)
(** ** server.ts: middleware, error handling and startup *)
(* ===================================================================== *)

Module Middleware.

(** [process.env] as the server itself reads it: the variables of the
    connection manager, [CLIENT_URL] and [PORT]. *)
Record server_env : Type := {
  db_env : env;
  env_CLIENT_URL : option jsstring;
  env_PORT : option jsstring
}.

(** A [Set<string>], its members in insertion order. *)
Definition set_has (x : jsstring) (s : list jsstring) : bool :=
  existsb (jsstring_eqb x) s.

Definition set_add (x : jsstring) (s : list jsstring) : list jsstring :=
  if set_has x s then s else s ++ [x].

(** What the origin function hands to its callback: [(null, true)] or an
    [Error] with its message. *)
Inductive cors_verdict : Type :=
| CorsAllow
| CorsError (message : string).

(** The set the origin function builds on every call. *)
Definition allowedOrigins (se : server_env) : list jsstring :=
  let s0 := match env_CLIENT_URL se with
            | Some (c :: r) => set_add (c :: r) []
            | _ => []
            end in
  set_add (lit "http://localhost:3001") (set_add (lit "http://localhost:3000") s0).

(** The [origin] function given to [cors]: a request without an [Origin]
    header (or with an empty one) is let through, any other is looked up
    in the set. *)
Definition cors_origin (se : server_env) (origin : option jsstring) : cors_verdict :=
  match origin with
  | None | Some [] => CorsAllow
  | Some (c :: r) =>
      if set_has (c :: r) (allowedOrigins se) then CorsAllow
      else CorsError "Not allowed by CORS"
  end.

(** An [Error] object, for what the error middleware reads of it. *)
Record js_error : Type := {
  err_message : jsstring;
  err_stack : option jsstring
}.

(** [process.env.NODE_ENV === s] *)
Definition node_env_is (e : env) (s : string) : bool :=
  match env_NODE_ENV e with
  | Some v => jsstring_eqb v (lit s)
  | None => false
  end.

(** The error-handling middleware [(err, req, res, next)]. *)
Definition error_middleware (e : env) (err : js_error) : M response :=
  (console ErrorLevel [Text "Error:"; Interp (err_stack err)] ;;;
   status_json 500
     (PObj [ ("error", pstr "Something went wrong!");
             ("message", if node_env_is e "development"
                         then PJson (JStr (err_message err))
                         else pstr "Internal server error") ]))%js.

(** [app.use('/api/*', ...)]: the handler of unmatched API routes. *)
Definition api_not_found : M response :=
  status_json 404 (error_body "API route not found").

(** A request through [cors] to its route: when the origin function
    answers with an error, [cors] passes it to [next] and Express hands
    it to the error middleware instead of the route; [stack] is what the
    [Error] captured when it was made. *)
Definition through_cors (se : server_env) (origin : option jsstring)
           (stack : option jsstring) (route : M response) : M response :=
  match cors_origin se origin with
  | CorsAllow => route
  | CorsError msg =>
      error_middleware (db_env se) {| err_message := lit msg; err_stack := stack |}
  end.




End Middleware.
Import Middleware.

(* ===================================================================== *)
(** ** frontend/src/App.tsx: the task list and the add form *)
(* ===================================================================== *)

Module App.

(** The component's state, for the hooks the task functions write. *)
Record state : Type := {
  st_tasks : list payload;
  st_loading : bool;
  st_error : option string;
  st_newTitle : jsstring
}.

(** How an axios promise ends: fulfilled with [res.data], rejected, or
    never settled. *)
Inductive settled : Type :=
| Fulfilled (data : payload)
| Rejected
| Pending.

(** An axios call whose request runs [route] on the server: the promise
    is fulfilled with the body of a 2xx answer, rejected on any other
    status or when the request does not get through, and stays pending
    when the server never answers.  Payloads stand for their JSON
    rendering on the wire. *)
Definition axios (delivered : bool) (route : M response) (w : world)
  : world * settled :=
  if delivered
  then match route w with
       | (w', Return r) =>
           (w', if (200 <=? status r) && (status r <? 300)
                then Fulfilled (body r) else Rejected)
       | (w', Throw _) => (w', Pending)
       end
  else (w, Rejected).

(** [res.data || []] for a body expected to be a task array: the array's
    items, nothing for a falsy body; [None] for any other body, which is
    outside what is modelled. *)
Definition data_or_empty (data : payload) : option (list payload) :=
  match data with
  | PArr items => Some items
  | PJson j => if truthy j then None else Some []
  | _ => None
  end.

(** [fetchTasks()], run to the end of its promise (or to where it waits
    for ever): the state it leaves, [None] when the body is outside what
    is modelled. *)
Definition fetchTasks (o : io) (delivered : bool) (u : state) (w : world)
  : world * option state :=
  match axios delivered (get_tasks o) w with
  | (w', Fulfilled data) =>
      (w', match data_or_empty data with
           | Some items =>
               Some {| st_tasks := items; st_loading := false;
                       st_error := None; st_newTitle := st_newTitle u |}
           | None => None
           end)
  | (w', Rejected) =>
      (w', Some {| st_tasks := st_tasks u; st_loading := false;
                   st_error := Some "Failed to load tasks";
                   st_newTitle := st_newTitle u |})
  | (w', Pending) =>
      (w', Some {| st_tasks := st_tasks u; st_loading := true;
                   st_error := st_error u; st_newTitle := st_newTitle u |})
  end.

(** [addTask(e)] *)
Definition addTask (o : io) (delivered : bool) (u : state) (w : world)
  : world * state :=
  if negb (truthy (JStr (trim (st_newTitle u))))
  then (w, {| st_tasks := st_tasks u; st_loading := st_loading u;
              st_error := Some "Please enter a title";
              st_newTitle := st_newTitle u |})
  else
    match axios delivered
                (post_tasks o (JObj [("title", JStr (st_newTitle u))])) w with
    | (w', Fulfilled data) =>
        (w', {| st_tasks := data :: st_tasks u; st_loading := st_loading u;
                st_error := None; st_newTitle := [] |})
    | (w', Rejected) =>
        (w', {| st_tasks := st_tasks u; st_loading := st_loading u;
                st_error := Some "Failed to create task";
                st_newTitle := st_newTitle u |})
    | (w', Pending) =>
        (w', {| st_tasks := st_tasks u; st_loading := st_loading u;
                st_error := None; st_newTitle := st_newTitle u |})
    end.

End App.
Import App.

(* ===================================================================== *)
(** ** More properties of worlds and requests *)
(* ===================================================================== *)

(** The driver calls among the effects, newest first. *)
Fixpoint driver_calls (t : list event) : list string :=
  match t with
  | [] => []
  | Driver op :: r => op :: driver_calls r
  | Console _ _ :: r => driver_calls r
  end.

(** A stored title as the schema leaves it: non-empty and unchanged by
    trimming. *)
Definition title_ok (d : task_doc) : Prop :=
  t_title d <> [] /\ trim (t_title d) = t_title d.


(** The statuses a route can answer with. *)
Definition route_statuses (r : request) : list Z :=
  match r with
  | GetHealth => [200]
  | GetUsers => [200; 500]
  | GetTasks => [200; 500]
  | PostTasks _ => [201; 400; 500]
  | PostUsers _ => [201; 400; 409; 500]
  end.

(** A component state showing nothing yet. *)
Definition u_start (title : string) : state :=
  {| st_tasks := []; st_loading := false; st_error := None;
     st_newTitle := lit title |}.

(** A request during which the driver fails. *)
Definition o_down : io :=
  {| date_now := 100; new_date := 101; read_ok := false; write_ok := false |}.

(** An environment naming a client origin. *)
Definition se_client : server_env :=
  {| db_env := env_none;
     env_CLIENT_URL := Some (lit "https://app.example.com");
     env_PORT := None |}.

(** A component state showing the list of the sample store. *)
Definition u_live (title : string) : state :=
  {| st_tasks := map task_object (sort_desc (tasks w_live)); st_loading := false;
     st_error := None; st_newTitle := lit title |}.

(** The world with effects added, newest first. *)
Definition with_events (evs : list event) (w : world) : world :=
  {| conn := conn w; tasks := tasks w; users := users w;
     next_oid := next_oid w; trace := (evs ++ trace w)%list |}.

Ltac run :=
  unfold bind, try_catch, ret, throw, lift, emit, console, read_conn,
    getDBState, status_json, json_ in *; simpl in *.

(* ===================================================================== *)
(** ** Strings *)
(* ===================================================================== *)

Lemma trimStart_all (s : jsstring) :
  forallb isTrimmable s = true -> trimStart s = [].
Proof.
  induction s as [|c r IH]; simpl; [reflexivity|].
  intros H. apply andb_true_iff in H as [Hc Hr]. rewrite Hc. auto.
Qed.

Lemma trim_all (s : jsstring) :
  forallb isTrimmable s = true -> trim s = [].
Proof.
  intros H. unfold trim, trimEnd. rewrite (trimStart_all s H). reflexivity.
Qed.

Lemma trimStart_nil_inv (s : jsstring) :
  trimStart s = [] -> forallb isTrimmable s = true.
Proof.
  induction s as [|c r IH]; simpl; [reflexivity|].
  destruct (isTrimmable c); [exact IH | discriminate].
Qed.

Lemma forallb_rev {A : Type} (f : A -> bool) (l : list A) :
  forallb f (rev l) = forallb f l.
Proof.
  induction l as [|x r IH]; simpl; [reflexivity|].
  rewrite forallb_app, IH. simpl. rewrite andb_true_r. apply andb_comm.
Qed.

Lemma trimStart_head (s : jsstring) :
  match trimStart s with
  | [] => True
  | c :: _ => isTrimmable c = false
  end.
Proof.
  induction s as [|c r IH]; simpl; [exact I|].
  destruct (isTrimmable c) eqn:E; [exact IH | exact E].
Qed.

Lemma trim_nil_inv (s : jsstring) :
  trim s = [] -> forallb isTrimmable s = true.
Proof.
  unfold trim, trimEnd. intros H.
  assert (Hr : trimStart (rev (trimStart s)) = []).
  { destruct (trimStart (rev (trimStart s))) as [|c l]; [reflexivity|].
    simpl in H. destruct (rev l); discriminate. }
  apply trimStart_nil_inv in Hr. rewrite forallb_rev in Hr.
  apply trimStart_nil_inv.
  pose proof (trimStart_head s) as Hh.
  destruct (trimStart s) as [|c r]; [reflexivity|].
  simpl in Hr. rewrite Hh in Hr. discriminate.
Qed.

(** A string is blank exactly when trimming leaves nothing. *)
Lemma trim_nil_iff (s : jsstring) :
  trim s = [] <-> forallb isTrimmable s = true.
Proof. split; [apply trim_nil_inv | apply trim_all]. Qed.

(* ===================================================================== *)
(** ** The connection state as the handlers see it *)
(* ===================================================================== *)

Lemma state_is_connected (c : connection) :
  state_is (db_state c) "connected"
  = String.eqb (state_name (readyState c)) "connected".
Proof.
  unfold db_state, state_name.
  destruct (readyState c) as [|p|p]; try reflexivity.
  destruct p as [[p|p|]|[p|p|]|]; reflexivity.
Qed.


(* ===================================================================== *)
(** ** Handlers never touch the connection *)
(* ===================================================================== *)

Lemma keeps_ret {A : Type} (a : A) : keeps_conn (ret a).
Proof. intros w. reflexivity. Qed.

Lemma keeps_throw {A : Type} (e : error) : keeps_conn (@throw A e).
Proof. intros w. reflexivity. Qed.

Lemma keeps_lift {A : Type} (o : outcome A) : keeps_conn (lift o).
Proof. intros w. reflexivity. Qed.

Lemma keeps_emit (e : event) : keeps_conn (emit e).
Proof. intros w. reflexivity. Qed.

Lemma keeps_read_conn : keeps_conn read_conn.
Proof. intros w. reflexivity. Qed.

Lemma keeps_fresh_oid : keeps_conn fresh_oid.
Proof. intros w. reflexivity. Qed.

Lemma keeps_insert_task (d : task_doc) : keeps_conn (insert_task d).
Proof. intros w. reflexivity. Qed.

Lemma keeps_insert_user (d : user_doc) : keeps_conn (insert_user d).
Proof. intros w. reflexivity. Qed.

Lemma keeps_query {A : Type} (f : world -> A) :
  keeps_conn (fun w => (w, Return (f w))).
Proof. intros w. reflexivity. Qed.

Lemma keeps_bind {A B : Type} (m : M A) (k : A -> M B) :
  keeps_conn m -> (forall a, keeps_conn (k a)) -> keeps_conn (bind m k).
Proof.
  intros Hm Hk w. unfold bind. specialize (Hm w).
  destruct (m w) as [w' [a|e]]; simpl in *; [|exact Hm].
  rewrite Hk. exact Hm.
Qed.

Lemma keeps_try_catch {A : Type} (m : M A) (h : error -> M A) :
  keeps_conn m -> (forall e, keeps_conn (h e)) -> keeps_conn (try_catch m h).
Proof.
  intros Hm Hh w. unfold try_catch. specialize (Hm w).
  destruct (m w) as [w' [a|e]]; simpl in *; [exact Hm|].
  rewrite Hh. exact Hm.
Qed.

Ltac keeps :=
  repeat first
    [ apply keeps_ret | apply keeps_throw | apply keeps_lift | apply keeps_emit
    | apply keeps_read_conn | apply keeps_fresh_oid | apply keeps_insert_task
    | apply keeps_insert_user | apply keeps_query
    | apply keeps_bind | apply keeps_try_catch
    | match goal with
      | |- keeps_conn (if ?b then _ else _) => destruct b
      | |- keeps_conn (match ?x with _ => _ end) => destruct x
      | |- forall _, _ => intro
      end ].

Lemma keeps_get_health (e : env) (o : io) : keeps_conn (get_health e o).
Proof. unfold get_health, getDBState, json_, status_json. keeps. Qed.

Lemma keeps_get_users (o : io) : keeps_conn (get_users o).
Proof.
  unfold get_users, getDBState, UserModel_find_select, json_, status_json, console.
  keeps.
Qed.

Lemma keeps_get_tasks (o : io) : keeps_conn (get_tasks o).
Proof.
  unfold get_tasks, getDBState, TaskModel_find_sorted, json_, status_json, console.
  keeps.
Qed.

Lemma keeps_post_tasks (o : io) (b : json) : keeps_conn (post_tasks o b).
Proof.
  unfold post_tasks, getDBState, TaskModel_create, status_json, console.
  keeps.
Qed.

Lemma keeps_post_users (o : io) (b : json) : keeps_conn (post_users o b).
Proof.
  unfold post_users, getDBState, UserModel_findOne_email, UserModel_create,
    status_json, console.
  keeps.
Qed.

Lemma keeps_handle (e : env) (o : io) (r : request) : keeps_conn (handle e o r).
Proof.
  destruct r; simpl.
  - apply keeps_get_health.
  - apply keeps_get_users.
  - apply keeps_get_tasks.
  - apply keeps_post_tasks.
  - apply keeps_post_users.
Qed.

Lemma serve_conn (e : env) (rs : list (io * request)) (w : world) :
  conn (serve e rs w) = conn w.
Proof.
  revert w. induction rs as [|[o r] rest IH]; intros w; simpl; [reflexivity|].
  rewrite IH. apply keeps_handle.
Qed.

Lemma serve_connected (e : env) (rs : list (io * request)) (w : world) :
  connected (serve e rs w) = connected w.
Proof. unfold connected. rewrite serve_conn. reflexivity. Qed.

(* ===================================================================== *)
(** ** Listing tasks in fallback mode *)
(* ===================================================================== *)

Lemma get_tasks_fallback (o : io) (w : world) :
  connected w = false ->
  get_tasks o w = (w, Return {| status := 200; body := PArr mock_tasks |}).
Proof.
  intros H. unfold get_tasks. run.
  rewrite state_is_connected. unfold connected in H. rewrite H. reflexivity.
Qed.

(** C1.  While the connection state is not 'connected', the task list
    answers 200 with the same two mock tasks, whatever requests (creates
    included) were served before it and whatever the outside answers
    during the call; the world is left as it was. *)
Theorem list_tasks_fallback_fixed
        (e : env) (w : world) (rs : list (io * request)) (o : io) :
  connected w = false ->
  get_tasks o (serve e rs w)
  = (serve e rs w,
     Return {| status := 200;
               body := PArr
                 [ PObj [("title", pstr "Define TypeScript interfaces (Mock)");
                         ("completed", pbool true)];
                   PObj [("title", pstr "Create React components (Mock)");
                         ("completed", pbool false)] ] |}).
Proof.
  intros H. apply get_tasks_fallback. rewrite serve_connected. exact H.
Qed.

(** Two task creates, then the list, in a process that never connected. *)
Lemma list_tasks_fallback_fixed_witness :
  connected w_idle = false
  /\ snd (get_tasks o_ok
            (serve env_none
                   [(o_ok, PostTasks (body_title "first"));
                    (o_ok, PostTasks (body_title "second"))] w_idle))
     = Return {| status := 200; body := PArr mock_tasks |}.
Proof.
  split; [reflexivity|].
  rewrite (list_tasks_fallback_fixed env_none w_idle
             [(o_ok, PostTasks (body_title "first"));
              (o_ok, PostTasks (body_title "second"))] o_ok eq_refl).
  reflexivity.
Defined.

(* ===================================================================== *)
(** ** Creating a task: validation *)
(* ===================================================================== *)

(** C4.  A task create whose title is absent, empty or white space only
    answers 400 'Title required' and leaves the whole world as it was
    (collections, connection and the trace of driver calls and console
    lines), in every connection state and whatever the driver would have
    answered; a list served next sees what it would have seen before. *)
Theorem blank_title_rejected (o : io) (b : json) (w : world) :
  blank_title (prop "title" b) ->
  post_tasks o b w
  = (w, Return {| status := 400; body := PObj [("error", pstr "Title required")] |})
  /\ forall o', get_tasks o' (fst (post_tasks o b w)) = get_tasks o' w.
Proof.
  intros H.
  assert (E : post_tasks o b w
    = (w, Return {| status := 400; body := PObj [("error", pstr "Title required")] |})).
  { unfold post_tasks. destruct H as [H | [s [H Hs]]]; rewrite H.
    - reflexivity.
    - destruct s as [|c r]; [reflexivity|]. run.
      rewrite (trim_all (c :: r) Hs). reflexivity. }
  split; [exact E|]. intros o'. rewrite E. reflexivity.
Qed.

(** A title of two spaces and a tab, sent to a connected process. *)
Lemma blank_title_rejected_witness :
  post_tasks o_ok (JObj [("title", JStr [32; 32; 9]%N)]) w_live
  = (w_live,
     Return {| status := 400; body := PObj [("error", pstr "Title required")] |}).
Proof.
  apply (blank_title_rejected o_ok (JObj [("title", JStr [32; 32; 9]%N)]) w_live).
  right. exists [32; 32; 9]%N. split; reflexivity.
Defined.

(** C10.  Whenever the task create answers 201, the task it sends has
    [completed] false, in the persistent branch and in the fallback
    branch alike and whatever else the request body holds (a [completed]
    property included). *)
Theorem created_task_not_completed (o : io) (b : json) (w w' : world) (r : response) :
  post_tasks o b w = (w', Return r) ->
  status r = 201 ->
  field "completed" (body r) = Some (pbool false).
Proof.
  unfold post_tasks. intros H Hs.
  destruct (prop "title" b) as [| |x|n|s|l|l] eqn:Et; run;
    try (inversion H; subst; simpl in Hs; discriminate).
  - destruct x; run; inversion H; subst; simpl in Hs; discriminate.
  - destruct (n =? 0); run; inversion H; subst; simpl in Hs; discriminate.
  - destruct s as [|c s]; run; [inversion H; subst; simpl in Hs; discriminate|].
    destruct (trim (c :: s)) as [|c' s'] eqn:Etr; run;
      [inversion H; subst; simpl in Hs; discriminate|].
    rewrite state_is_connected in H.
    destruct (String.eqb _ _); run.
    + unfold TaskModel_create in H. run. rewrite Etr in H. run.
      destruct (write_ok o); run; inversion H; subst; simpl in *;
        [reflexivity | discriminate].
    + inversion H; subst. reflexivity.
Qed.

(** A client sending [completed: true] to a connected process. *)
Lemma created_task_not_completed_witness :
  field "completed"
        (task_object {| t_id := 3; t_title := lit "x"; t_completed := false;
                        t_createdAt := 101; t_updatedAt := 101; t_v := 0 |})
  = Some (pbool false).
Proof.
  apply (created_task_not_completed o_ok
           (JObj [("title", JStr (lit "x")); ("completed", JBool true)])
           w_live
           (fst (post_tasks o_ok
                   (JObj [("title", JStr (lit "x")); ("completed", JBool true)])
                   w_live))
           {| status := 201;
              body := task_object
                        {| t_id := 3; t_title := lit "x"; t_completed := false;
                           t_createdAt := 101; t_updatedAt := 101; t_v := 0 |} |});
    reflexivity.
Defined.

(* ===================================================================== *)
(** ** Creating a task, then listing, while connected *)
(* ===================================================================== *)

Lemma insert_desc_newest (d : task_doc) (l : list task_doc) :
  Forall (fun x => t_createdAt x < t_createdAt d) l ->
  insert_desc d l = d :: l.
Proof.
  intros H. destruct l as [|x r]; [reflexivity|]. simpl.
  inversion H; subst.
  destruct (Z.ltb_spec (t_createdAt d) (t_createdAt x)); [lia | reflexivity].
Qed.

Lemma sort_desc_snoc_newest (d : task_doc) (l : list task_doc) :
  Forall (fun x => t_createdAt x < t_createdAt d) l ->
  sort_desc (l ++ [d]) = d :: sort_desc l.
Proof.
  induction l as [|x r IH]; intros H; [reflexivity|].
  inversion H; subst. simpl. rewrite (IH H3). simpl.
  destruct (Z.ltb_spec (t_createdAt x) (t_createdAt d)); [reflexivity | lia].
Qed.

Lemma post_tasks_connected (o : io) (b : json) (s : jsstring) (w : world) :
  prop "title" b = JStr s -> trim s <> [] ->
  connected w = true -> write_ok o = true ->
  let d := {| t_id := next_oid w; t_title := trim s; t_completed := false;
              t_createdAt := new_date o; t_updatedAt := new_date o; t_v := 0 |} in
  post_tasks o b w
  = ({| conn := conn w; tasks := tasks w ++ [d]; users := users w;
        next_oid := N.succ (next_oid w);
        trace := Driver "Task.create" :: trace w |},
     Return {| status := 201; body := task_object d |}).
Proof.
  intros Et Hs Hc Hw d. unfold post_tasks. rewrite Et.
  assert (Hne : s <> []) by (intros ->; apply Hs; reflexivity).
  destruct s as [|c s]; [contradiction|]. run.
  destruct (trim (c :: s)) as [|c' s'] eqn:Etr; [contradiction|]. run.
  rewrite state_is_connected. unfold connected in Hc. rewrite Hc.
  unfold TaskModel_create. run. rewrite Etr. run. rewrite Hw. reflexivity.
Qed.

Lemma get_tasks_connected (o : io) (w : world) :
  connected w = true -> read_ok o = true ->
  get_tasks o w
  = ({| conn := conn w; tasks := tasks w; users := users w;
        next_oid := next_oid w; trace := Driver "Task.find" :: trace w |},
     Return {| status := 200;
               body := PArr (map task_object (sort_desc (tasks w))) |}).
Proof.
  intros Hc Hr. unfold get_tasks, TaskModel_find_sorted. run.
  rewrite state_is_connected. unfold connected in Hc. rewrite Hc.
  rewrite Hr. reflexivity.
Qed.

(** C2, as amended.  For a title that is a string with non-blank trimmed
    content, a task create served while connected answers 201 with the
    stored task, whose title is the TRIMMED title; a list served next
    answers 200 with that task first, provided the driver's write and
    read succeed and the creation time read from the clock is later than
    that of every task already stored. *)
Theorem create_then_list_newest_first
        (o o' : io) (b : json) (s : jsstring) (w : world) :
  prop "title" b = JStr s -> trim s <> [] ->
  connected w = true -> write_ok o = true -> read_ok o' = true ->
  Forall (fun d => t_createdAt d < new_date o) (tasks w) ->
  (exists created,
      snd (post_tasks o b w) = Return {| status := 201; body := created |}
      /\ field "title" created = Some (PJson (JStr (trim s))))
  /\ lists_first (trim s) (get_tasks o' (fst (post_tasks o b w))).
Proof.
  intros Et Hs Hc Hw Hr Hnew.
  rewrite (post_tasks_connected o b s w Et Hs Hc Hw). simpl. split.
  - eexists. split; reflexivity.
  - unfold lists_first. rewrite get_tasks_connected; [|exact Hc|exact Hr]. simpl.
    rewrite sort_desc_snoc_newest by exact Hnew. simpl.
    eexists. eexists. split; reflexivity.
Qed.

(** The title " x" created at time 101 over a task created at time 50. *)
Lemma create_then_list_newest_first_witness :
  lists_first (lit "x")
    (get_tasks o_ok (fst (post_tasks o_ok (body_title " x") w_live))).
Proof.
  refine (proj2 (create_then_list_newest_first o_ok o_ok (body_title " x")
                   (lit " x") w_live eq_refl _ eq_refl eq_refl eq_refl _)).
  - vm_compute. discriminate.
  - repeat constructor.
Defined.

(** C2 as stated fails: the title " x" is non-blank once trimmed, yet the
    first task listed after its creation is titled "x", not " x". *)
Lemma padded_title_listed_trimmed :
  connected w_live = true
  /\ trim (lit " x") <> []
  /\ lists_first (lit "x")
       (get_tasks o_ok (fst (post_tasks o_ok (body_title " x") w_live)))
  /\ ~ lists_first (lit " x")
         (get_tasks o_ok (fst (post_tasks o_ok (body_title " x") w_live))).
Proof.
  split; [reflexivity|]. split; [vm_compute; discriminate|]. split.
  - vm_compute. eexists. eexists. split; reflexivity.
  - intros [first [rest [H1 H2]]]. vm_compute in H1.
    inversion H1; subst. vm_compute in H2. discriminate.
Qed.

(* ===================================================================== *)
(** ** Creating a user: duplicates *)
(* ===================================================================== *)

Lemma jsstring_eqb_eq (a b : jsstring) : jsstring_eqb a b = true <-> a = b.
Proof.
  revert b. induction a as [|x a IH]; intros [|y b]; simpl;
    try (split; [discriminate | discriminate]); [split; reflexivity|].
  rewrite andb_true_iff, N.eqb_eq, IH. split.
  - intros [-> ->]. reflexivity.
  - intros H. inversion H. split; reflexivity.
Qed.

Lemma find_email_present (e : jsstring) (us : list user_doc) :
  In e (map u_email us) ->
  exists d, find (fun d => jsstring_eqb (u_email d) e) us = Some d.
Proof.
  induction us as [|u r IH]; simpl; [contradiction|].
  intros [H | H].
  - exists u. rewrite (proj2 (jsstring_eqb_eq _ _) H). reflexivity.
  - destruct (jsstring_eqb (u_email u) e); [exists u; reflexivity | exact (IH H)].
Qed.

Lemma post_users_fallback (o : io) (b : json) (w : world) :
  truthy (prop "name" b) = true -> truthy (prop "email" b) = true ->
  connected w = false ->
  post_users o b w = (w, Return {| status := 201; body := fallback_user o b |}).
Proof.
  intros Hn He Hc. unfold post_users. rewrite Hn, He. run.
  rewrite state_is_connected. unfold connected in Hc. rewrite Hc. reflexivity.
Qed.

Lemma post_users_conflict (o : io) (b : json) (e : jsstring) (w : world) :
  truthy (prop "name" b) = true -> truthy (prop "email" b) = true ->
  castString (prop "email" b) = Return (Some e) ->
  connected w = true -> read_ok o = true ->
  In e (map u_email (users w)) ->
  post_users o b w
  = ({| conn := conn w; tasks := tasks w; users := users w;
        next_oid := next_oid w; trace := Driver "User.findOne" :: trace w |},
     Return {| status := 409; body := PObj [("error", pstr "User already exists")] |}).
Proof.
  intros Hn He Hcast Hc Hr Hin. unfold post_users. rewrite Hn, He. run.
  rewrite state_is_connected. unfold connected in Hc. rewrite Hc.
  unfold UserModel_findOne_email. run. rewrite Hcast, Hr. run.
  destruct (find_email_present e (users w) Hin) as [d Hd]. rewrite Hd.
  reflexivity.
Qed.

Lemma find_email_absent (e : jsstring) (us : list user_doc) :
  ~ In e (map u_email us) ->
  find (fun d => jsstring_eqb (u_email d) e) us = None.
Proof.
  induction us as [|u r IH]; simpl; [reflexivity|].
  intros H. destruct (jsstring_eqb (u_email u) e) eqn:E.
  - exfalso. apply H. left. apply jsstring_eqb_eq. exact E.
  - apply IH. intros Hin. apply H. right. exact Hin.
Qed.

Lemma post_users_created (o : io) (b : json) (n e : jsstring) (w : world) :
  prop "name" b = JStr n -> n <> [] -> prop "email" b = JStr e -> e <> [] ->
  connected w = true -> read_ok o = true -> write_ok o = true ->
  ~ In e (map u_email (users w)) ->
  let d := {| u_id := next_oid w; u_name := n; u_email := e;
              u_createdAt := new_date o; u_v := 0 |} in
  post_users o b w
  = ({| conn := conn w; tasks := tasks w; users := users w ++ [d];
        next_oid := N.succ (next_oid w);
        trace := Driver "User.create" :: Driver "User.findOne" :: trace w |},
     Return {| status := 201;
               body := PObj [ ("id", POid (next_oid w));
                              ("name", PJson (JStr n));
                              ("email", PJson (JStr e));
                              ("createdAt", PDate (new_date o)) ] |}).
Proof.
  intros En Hn Ee He Hc Hr Hw Hnot d. unfold post_users. rewrite En, Ee.
  destruct n as [|cn n]; [contradiction|]. destruct e as [|ce e]; [contradiction|].
  run. rewrite state_is_connected. unfold connected in Hc. rewrite Hc.
  unfold UserModel_findOne_email. run. rewrite Hr. run.
  rewrite (find_email_absent (ce :: e) (users w) Hnot).
  unfold UserModel_create. run. rewrite Hw. reflexivity.
Qed.

(** The lookup before the insert at work: while connected and with the
    driver working, the first create of a new email answers 201 and the
    second create of the same body answers 409. *)
Lemma second_create_conflicts (o o2 : io) (b : json) (n e : jsstring) (w : world) :
  prop "name" b = JStr n -> n <> [] -> prop "email" b = JStr e -> e <> [] ->
  connected w = true -> read_ok o = true -> write_ok o = true ->
  read_ok o2 = true -> ~ In e (map u_email (users w)) ->
  (exists p, snd (post_users o b w) = Return {| status := 201; body := p |})
  /\ snd (post_users o2 b (fst (post_users o b w)))
     = Return {| status := 409; body := PObj [("error", pstr "User already exists")] |}.
Proof.
  intros En Hn Ee He Hc Hr Hw Hr2 Hnot.
  rewrite (post_users_created o b n e w En Hn Ee He Hc Hr Hw Hnot). simpl.
  split; [eexists; reflexivity|].
  rewrite (post_users_conflict o2 b e); try assumption; try reflexivity.
  - rewrite En. destruct n; [contradiction | reflexivity].
  - rewrite Ee. destruct e; [contradiction | reflexivity].
  - rewrite Ee. reflexivity.
  - simpl. rewrite map_app. apply in_or_app. right. left. reflexivity.
Qed.

(** C3.  For a request with a name and an email (any truthy values, the
    email casting to the string [e]): served while connected, with [e]
    the email of a stored user and the driver's lookup succeeding, the
    user create answers 409 'User already exists' and both collections
    are as before; served while not connected it answers 201, and so does
    a second create with the same body: the fallback branch looks nothing
    up. *)
Theorem duplicate_email_asymmetry
        (o o2 : io) (b : json) (e : jsstring) (w : world) :
  truthy (prop "name" b) = true -> truthy (prop "email" b) = true ->
  castString (prop "email" b) = Return (Some e) ->
  (connected w = true -> read_ok o = true -> In e (map u_email (users w)) ->
   snd (post_users o b w)
   = Return {| status := 409; body := PObj [("error", pstr "User already exists")] |}
   /\ users (fst (post_users o b w)) = users w
   /\ tasks (fst (post_users o b w)) = tasks w)
  /\ (connected w = false ->
      snd (post_users o b w) = Return {| status := 201; body := fallback_user o b |}
      /\ snd (post_users o2 b (fst (post_users o b w)))
         = Return {| status := 201; body := fallback_user o2 b |}).
Proof.
  intros Hn He Hcast. split.
  - intros Hc Hr Hin.
    rewrite (post_users_conflict o b e w Hn He Hcast Hc Hr Hin). simpl. auto.
  - intros Hc.
    rewrite (post_users_fallback o b w Hn He Hc). simpl.
    rewrite (post_users_fallback o2 b w Hn He Hc). simpl. auto.
Qed.

(** Ann's email again, against the connected store that holds it and
    against a process that never connected. *)
Lemma duplicate_email_asymmetry_witness :
  (snd (post_users o_ok (body_user "Bob" "ann@example.com") w_live)
   = Return {| status := 409; body := PObj [("error", pstr "User already exists")] |}
   /\ users (fst (post_users o_ok (body_user "Bob" "ann@example.com") w_live))
      = users w_live
   /\ tasks (fst (post_users o_ok (body_user "Bob" "ann@example.com") w_live))
      = tasks w_live)
  /\ (snd (post_users o_ok (body_user "Bob" "ann@example.com") w_idle)
      = Return {| status := 201;
                  body := fallback_user o_ok (body_user "Bob" "ann@example.com") |}
      /\ snd (post_users o_ok (body_user "Bob" "ann@example.com")
                (fst (post_users o_ok (body_user "Bob" "ann@example.com") w_idle)))
         = Return {| status := 201;
                     body := fallback_user o_ok (body_user "Bob" "ann@example.com") |}).
Proof.
  split.
  - apply (proj1 (duplicate_email_asymmetry o_ok o_ok
                    (body_user "Bob" "ann@example.com") (lit "ann@example.com")
                    w_live eq_refl eq_refl eq_refl));
      [reflexivity | reflexivity | left; reflexivity].
  - apply (proj2 (duplicate_email_asymmetry o_ok o_ok
                    (body_user "Bob" "ann@example.com") (lit "ann@example.com")
                    w_idle eq_refl eq_refl eq_refl)).
    reflexivity.
Defined.

(* ===================================================================== *)
(** ** Creating a user: validation *)
(* ===================================================================== *)

Lemma post_users_status (o : io) (b : json) (w : world) :
  truthy (prop "name" b) = true -> truthy (prop "email" b) = true ->
  match snd (post_users o b w) with
  | Return r => status r = 201 \/ status r = 409 \/ status r = 500
  | Throw _ => False
  end.
Proof.
  intros Hn He. unfold post_users. rewrite Hn, He. run.
  destruct (state_is _ _); run; [|auto].
  unfold UserModel_findOne_email. run.
  destruct (castString (prop "email" b)) as [oe|err] eqn:Ec; run; [|auto].
  destruct (read_ok o); run; [|auto].
  destruct (match oe with Some s => find _ _ | None => None end); run; [auto|].
  unfold UserModel_create. run. rewrite Ec. run.
  destruct (castString (prop "name" b)) as [on|err]; run; [|auto].
  destruct (required on); run; [|auto].
  destruct (required oe); run; [|auto].
  destruct (write_ok o); run; auto.
Qed.

(** C5, as amended.  The user create answers 400 'Name and email are
    required', leaving the world as it was (no driver call, no console
    line), exactly when the name or the email is absent or falsy (empty
    string, null, false, 0): a value of white space only is truthy and is
    not rejected. *)
Theorem user_create_requires_name_and_email (o : io) (b : json) (w : world) :
  rejects_user o b w
  <-> truthy (prop "name" b) = false \/ truthy (prop "email" b) = false.
Proof.
  unfold rejects_user. split.
  - intros H.
    destruct (truthy (prop "name" b)) eqn:Hn; [|auto].
    destruct (truthy (prop "email" b)) eqn:He; [|auto].
    pose proof (post_users_status o b w Hn He) as Hs.
    rewrite H in Hs. simpl in Hs. lia.
  - intros H. unfold post_users.
    destruct H as [H | H]; rewrite H; [reflexivity|].
    rewrite orb_true_r. reflexivity.
Qed.

(** A request without an email, sent to a connected process. *)
Lemma user_create_requires_name_and_email_witness :
  rejects_user o_ok (JObj [("name", JStr (lit "Ann"))]) w_live.
Proof.
  apply (proj2 (user_create_requires_name_and_email
                  o_ok (JObj [("name", JStr (lit "Ann"))]) w_live)).
  right. reflexivity.
Defined.

(** C5 as stated fails: a name of three spaces is white space only, and
    the create answers 201, not 400. *)
Lemma whitespace_name_accepted :
  forallb isTrimmable (lit "   ") = true
  /\ snd (post_users o_ok (body_user "   " "a@example.com") w_idle)
     = Return {| status := 201;
                 body := fallback_user o_ok (body_user "   " "a@example.com") |}
  /\ ~ rejects_user o_ok (body_user "   " "a@example.com") w_idle.
Proof.
  split; [reflexivity|]. split; [reflexivity|].
  unfold rejects_user. vm_compute. discriminate.
Qed.

(* ===================================================================== *)
(** ** Creating in fallback mode *)
(* ===================================================================== *)

Lemma post_tasks_fallback (o : io) (b : json) (s : jsstring) (w : world) :
  prop "title" b = JStr s -> trim s <> [] -> connected w = false ->
  post_tasks o b w = (w, Return {| status := 201; body := fallback_task b |}).
Proof.
  intros Et Hs Hc. unfold post_tasks, fallback_task. rewrite Et.
  assert (Hne : s <> []) by (intros ->; apply Hs; reflexivity).
  destruct s as [|c s]; [contradiction|]. run.
  destruct (trim (c :: s)) as [|c' s'] eqn:Etr; [contradiction|]. run.
  rewrite state_is_connected. unfold connected in Hc. rewrite Hc. reflexivity.
Qed.

Lemma get_users_fallback (o : io) (w : world) :
  connected w = false ->
  get_users o w = (w, Return {| status := 200; body := PArr sample_users |}).
Proof.
  intros H. unfold get_users. run.
  rewrite state_is_connected. unfold connected in H. rewrite H. reflexivity.
Qed.

(** C6, as amended.  While the connection state is not 'connected', a
    valid create answers 201 and leaves the world as it was.  The user
    sent back echoes the name and the email and carries an id read from
    the clock and an ISO timestamp; the task sent back is the title, as
    sent, with [completed] false, and carries neither id nor timestamp.
    A list served next answers the fixed fallback sequence: the user
    sent back is never in it, and the task sent back is in it only when
    its title is that of the second mock task. *)
Theorem fallback_create_is_not_retained
        (o o' : io) (b : json) (w : world) :
  connected w = false ->
  (truthy (prop "name" b) = true -> truthy (prop "email" b) = true ->
   post_users o b w
   = (w, Return {| status := 201;
                   body := PObj [ ("id", pnum (date_now o));
                                  ("name", PJson (prop "name" b));
                                  ("email", PJson (prop "email" b));
                                  ("createdAt", PIsoString (new_date o)) ] |})
   /\ get_users o' (fst (post_users o b w))
      = (w, Return {| status := 200; body := PArr sample_users |})
   /\ ~ In (fallback_user o b) sample_users)
  /\ (forall s, prop "title" b = JStr s -> trim s <> [] ->
      post_tasks o b w
      = (w, Return {| status := 201;
                      body := PObj [ ("title", PJson (JStr s));
                                     ("completed", pbool false) ] |})
      /\ get_tasks o' (fst (post_tasks o b w))
         = (w, Return {| status := 200; body := PArr mock_tasks |})
      /\ (In (fallback_task b) mock_tasks
          <-> s = lit "Create React components (Mock)")).
Proof.
  intros Hc. split.
  - intros Hn He. rewrite (post_users_fallback o b w Hn He Hc). simpl.
    split; [reflexivity|]. split; [apply get_users_fallback; exact Hc|].
    unfold fallback_user, sample_users. simpl.
    intros [H | [H | [H | []]]]; discriminate.
  - intros s Et Hs. rewrite (post_tasks_fallback o b s w Et Hs Hc). simpl.
    unfold fallback_task. rewrite Et.
    split; [reflexivity|]. split; [apply get_tasks_fallback; exact Hc|].
    unfold mock_tasks, pstr, pbool. simpl. split.
    + intros [H | [H | []]]; [discriminate|]. inversion H. reflexivity.
    + intros ->. right. left. reflexivity.
Qed.

(** A user and a task created in a process that never connected. *)
Lemma fallback_create_is_not_retained_witness :
  ~ In (fallback_user o_ok (body_user "Ann" "ann@example.com")) sample_users
  /\ get_tasks o_ok (fst (post_tasks o_ok (body_title "x") w_idle))
     = (w_idle, Return {| status := 200; body := PArr mock_tasks |}).
Proof.
  split.
  - apply (proj1 (fallback_create_is_not_retained
                    o_ok o_ok (body_user "Ann" "ann@example.com") w_idle eq_refl)
                 eq_refl eq_refl).
  - refine (proj1 (proj2 (proj2 (fallback_create_is_not_retained
                    o_ok o_ok (body_title "x") w_idle eq_refl)
                    (lit "x") eq_refl _))).
    vm_compute. discriminate.
Defined.

(** C6 as stated fails: the task created in fallback mode is sent back as
    its title and [completed] alone, with no id and no timestamp. *)
Lemma fallback_task_has_no_id :
  connected w_idle = false
  /\ snd (post_tasks o_ok (body_title "x") w_idle)
     = Return {| status := 201;
                 body := PObj [("title", pstr "x"); ("completed", pbool false)] |}
  /\ ~ has_id_and_timestamp
         (PObj [("title", pstr "x"); ("completed", pbool false)]).
Proof.
  split; [reflexivity|]. split; [reflexivity|].
  intros [_ H]. apply H. reflexivity.
Qed.

(* ===================================================================== *)
(** ** Connecting *)
(* ===================================================================== *)

Lemma no_uri_iff (e : env) (mongoUri : option jsstring) :
  no_uri e mongoUri
  <-> (mongoUri = None \/ mongoUri = Some [])
      /\ (env_MONGO_URI e = None \/ env_MONGO_URI e = Some [])
      /\ (env_DATABASE_URL e = None \/ env_DATABASE_URL e = Some []).
Proof.
  unfold no_uri, MONGO_URI, or_str.
  destruct mongoUri as [[|c r]|], (env_MONGO_URI e) as [[|c1 r1]|],
    (env_DATABASE_URL e) as [[|c2 r2]|]; split; intros H;
    try discriminate; try reflexivity;
    try (repeat split; auto; fail);
    destruct H as [[H1|H1] [[H2|H2] [H3|H3]]]; discriminate.
Qed.

(** C7.  [connectDB] resolves for every environment, override argument,
    answer of the driver and world: it never rejects.  With no URI from
    the argument nor from the environment it resolves with null after one
    advisory console line, without calling the driver and with the
    connection as it was (disconnected, in a process that has not
    connected).  With a URI and a failed attempt it resolves with null,
    the connection is disconnected, and the error went to the console. *)
Theorem connectDB_never_throws
        (e : env) (mongoUri : option jsstring) (reply : connect_reply) (w : world) :
  (exists r, snd (connectDB e mongoUri reply w) = Return r)
  /\ (no_uri e mongoUri ->
      connectDB e mongoUri reply w
      = ({| conn := conn w; tasks := tasks w; users := users w;
            next_oid := next_oid w;
            trace := Console WarnLevel
                       [Text "MONGO_URI not set - skipping DB connection (fallback mode)"]
                     :: trace w |},
         Return None))
  /\ (~ no_uri e mongoUri -> reply = ConnectFailed ->
      snd (connectDB e mongoUri reply w) = Return None
      /\ state_name (readyState (conn (fst (connectDB e mongoUri reply w))))
         = "disconnected"
      /\ trace (fst (connectDB e mongoUri reply w))
         = Console ErrorLevel [Text "Failed to connect to MongoDB:"; Caught ConnectError]
           :: Driver "connect" :: trace w).
Proof.
  unfold no_uri, connectDB.
  destruct (or_str mongoUri (MONGO_URI e)) as [|c u] eqn:Eu.
  - split; [eexists; reflexivity|]. split; [reflexivity|].
    intros H. contradiction H. reflexivity.
  - split; [|split; [discriminate|]].
    + destruct reply; eexists; reflexivity.
    + intros _ ->. repeat split; reflexivity.
Qed.

(** A URI given by the caller and an attempt that fails. *)
Lemma connectDB_never_throws_witness :
  snd (connectDB env_none (Some (lit "mongodb://db/app")) ConnectFailed w_idle)
  = Return None
  /\ state_name (readyState (conn (fst (connectDB env_none
                                          (Some (lit "mongodb://db/app"))
                                          ConnectFailed w_idle))))
     = "disconnected"
  /\ trace (fst (connectDB env_none (Some (lit "mongodb://db/app"))
                   ConnectFailed w_idle))
     = Console ErrorLevel [Text "Failed to connect to MongoDB:"; Caught ConnectError]
       :: Driver "connect" :: trace w_idle.
Proof.
  refine (proj2 (proj2 (connectDB_never_throws env_none
                          (Some (lit "mongodb://db/app")) ConnectFailed w_idle))
                _ eq_refl).
  unfold no_uri. vm_compute. discriminate.
Defined.

(* ===================================================================== *)
(** ** The health report *)
(* ===================================================================== *)

Lemma startup_without_uri (e : env) (reply : connect_reply) (w : world) :
  MONGO_URI e = [] -> conn (startup e reply w) = conn w.
Proof.
  intros H. unfold startup, connectDB. simpl. rewrite H. reflexivity.
Qed.

(** C9, as amended.  With no database URI in the environment, in a process
    whose connection was idle before startup, the health report answers
    200 with the keys status, message, timestamp, environment and db, the
    db object having the keys readyState, state, host and port, with
    readyState 0, state 'disconnected' and host and port null. *)
Theorem health_without_uri
        (e : env) (reply : connect_reply) (o : io) (w : world) :
  MONGO_URI e = [] -> conn w = idle_connection ->
  snd (get_health e o (startup e reply w))
  = Return {| status := 200;
              body := PObj
                [ ("status", pstr "OK");
                  ("message", pstr "Server is running!");
                  ("timestamp", PIsoString (new_date o));
                  ("environment",
                   PJson (JStr (or_str (env_NODE_ENV e) (lit "development"))));
                  ("db", PObj [ ("readyState", pnum 0);
                                ("state", pstr "disconnected");
                                ("host", pnull);
                                ("port", pnull) ]) ] |}.
Proof.
  intros Hu Hc. unfold get_health. run.
  rewrite (startup_without_uri e reply w Hu), Hc. reflexivity.
Qed.

Lemma health_without_uri_witness :
  db_field "state"
    (snd (get_health env_none o_ok (startup env_none ConnectFailed w_idle)))
  = Some (pstr "disconnected").
Proof.
  rewrite (health_without_uri env_none ConnectFailed o_ok w_idle eq_refl eq_refl).
  reflexivity.
Defined.

(** C9 as stated fails: the db object of the health report has no
    [phase] property; the connection state is under [state]. *)
Lemma health_db_has_no_phase :
  MONGO_URI env_none = []
  /\ db_field "phase" (snd (get_health env_none o_ok (startup env_none ConnectFailed w_idle)))
     <> Some (pstr "disconnected")
  /\ db_field "state" (snd (get_health env_none o_ok (startup env_none ConnectFailed w_idle)))
     = Some (pstr "disconnected").
Proof.
  split; [reflexivity|]. split; [vm_compute; discriminate | reflexivity].
Qed.

(* ===================================================================== *)
(** ** Listing while connected *)
(* ===================================================================== *)

Lemma insert_desc_perm (d : task_doc) (l : list task_doc) :
  Permutation (insert_desc d l) (d :: l).
Proof.
  induction l as [|x r IH]; simpl; [reflexivity|].
  destruct (t_createdAt d <? t_createdAt x); [|reflexivity].
  rewrite IH. apply perm_swap.
Qed.

Lemma sort_desc_perm (l : list task_doc) : Permutation (sort_desc l) l.
Proof.
  induction l as [|x r IH]; simpl; [reflexivity|].
  rewrite insert_desc_perm. apply perm_skip. exact IH.
Qed.

Lemma insert_desc_sorted (d : task_doc) (l : list task_doc) :
  Sorted newer_or_equal l -> Sorted newer_or_equal (insert_desc d l).
Proof.
  induction l as [|x r IH]; intros Hs; simpl.
  - repeat constructor.
  - destruct (Z.ltb_spec (t_createdAt d) (t_createdAt x)) as [Hlt | Hge].
    + inversion Hs as [|? ? Hr Hhd]; subst. constructor; [exact (IH Hr)|].
      destruct r as [|y r']; simpl.
      * constructor. unfold newer_or_equal. lia.
      * destruct (Z.ltb_spec (t_createdAt d) (t_createdAt y)).
        -- inversion Hhd; subst. constructor. assumption.
        -- constructor. unfold newer_or_equal. lia.
    + constructor; [exact Hs|]. constructor. unfold newer_or_equal. lia.
Qed.

Lemma sort_desc_sorted (l : list task_doc) : Sorted newer_or_equal (sort_desc l).
Proof.
  induction l as [|x r IH]; simpl; [constructor|].
  apply insert_desc_sorted. exact IH.
Qed.

Lemma task_object_has_version (d : task_doc) :
  field "__v" (task_object d) = Some (pnum (t_v d)).
Proof. reflexivity. Qed.

Lemma selected_user_has_no_version (d : user_doc) :
  field "__v" (select_exclude "__v" (user_object d)) = None
  /\ keys (select_exclude "__v" (user_object d)) = ["_id"; "name"; "email"; "createdAt"].
Proof. split; reflexivity. Qed.

Lemma get_users_connected (o : io) (w : world) :
  connected w = true -> read_ok o = true ->
  snd (get_users o w)
  = Return {| status := 200;
              body := PArr (map (fun d => select_exclude "__v" (user_object d))
                                (users w)) |}.
Proof.
  intros Hc Hr. unfold get_users, UserModel_find_select. run.
  rewrite state_is_connected. unfold connected in Hc. rewrite Hc.
  rewrite Hr. reflexivity.
Qed.

(** C8, where the code departs from it.  Served while connected with the
    driver's read succeeding, the task list answers 200 with the stored
    tasks in descending creation order, and every element still carries
    the version key [__v]: unlike the user list, the task query has no
    projection that drops it. *)
Theorem task_list_exposes_version_key (o : io) (w : world) :
  connected w = true -> read_ok o = true ->
  exists items,
    snd (get_tasks o w) = Return {| status := 200; body := PArr items |}
    /\ items = map task_object (sort_desc (tasks w))
    /\ Forall (fun p => exists v, field "__v" p = Some (pnum v)) items
    /\ (tasks w <> [] -> items <> []).
Proof.
  intros Hc Hr. rewrite (get_tasks_connected o w Hc Hr). simpl.
  eexists. split; [reflexivity|]. split; [reflexivity|]. split.
  - apply Forall_forall. intros p Hp. apply in_map_iff in Hp as [d [<- _]].
    exists (t_v d). reflexivity.
  - intros Hne Hnil. apply map_eq_nil in Hnil.
    apply Hne. apply Permutation_nil. rewrite <- Hnil. apply sort_desc_perm.
Qed.

(** The one stored task of the sample store, listed. *)
Lemma task_list_exposes_version_key_witness :
  exists items,
    snd (get_tasks o_ok w_live) = Return {| status := 200; body := PArr items |}
    /\ items = map task_object (sort_desc (tasks w_live))
    /\ Forall (fun p => exists v, field "__v" p = Some (pnum v)) items
    /\ (tasks w_live <> [] -> items <> []).
Proof.
  exact (task_list_exposes_version_key o_ok w_live eq_refl eq_refl).
Defined.

(* ===================================================================== *)
(** ** Trimming twice *)
(* ===================================================================== *)

Lemma trimStart_fixed (s : jsstring) :
  match s with [] => True | c :: _ => isTrimmable c = false end ->
  trimStart s = s.
Proof. destruct s as [|c r]; simpl; [reflexivity|]. intros ->. reflexivity. Qed.

Lemma trimStart_suffix (s : jsstring) :
  exists p, s = (p ++ trimStart s)%list.
Proof.
  induction s as [|c r [p IH]]; simpl; [exists []; reflexivity|].
  destruct (isTrimmable c).
  - exists (c :: p). simpl. rewrite <- IH. reflexivity.
  - exists []. reflexivity.
Qed.

Lemma trim_trimmed (s : jsstring) : trim (trim s) = trim s.
Proof.
  unfold trim, trimEnd.
  pose proof (trimStart_head s) as Ha.
  set (a := trimStart s) in *.
  pose proof (trimStart_head (rev a)) as Hu.
  destruct (trimStart_suffix (rev a)) as [p Hp].
  set (u := trimStart (rev a)) in *.
  assert (Hru : trimStart (rev u) = rev u).
  { apply trimStart_fixed.
    destruct u as [|x u']; [exact I|].
    apply (f_equal (@rev _)) in Hp. rewrite rev_involutive, rev_app_distr in Hp.
    destruct (rev (x :: u')) as [|y l] eqn:E.
    - apply (f_equal (@rev _)) in E. rewrite rev_involutive in E. discriminate.
    - rewrite Hp in Ha. simpl in Ha. exact Ha. }
  rewrite Hru, rev_involutive.
  rewrite (trimStart_fixed u Hu). reflexivity.
Qed.

Lemma post_tasks_cases (o : io) (b : json) (w : world) :
  post_tasks o b w
  = (w, Return {| status := 400; body := error_body "Title required" |})
  \/ (post_tasks o b w = (w, Throw TypeError)
      /\ truthy (prop "title" b) = true
      /\ forall s, prop "title" b <> JStr s)
  \/ (exists s, prop "title" b = JStr s /\ trim s <> []
      /\ connected w = false
      /\ post_tasks o b w
         = (w, Return {| status := 201; body := fallback_task b |}))
  \/ (exists s, prop "title" b = JStr s /\ trim s <> []
      /\ connected w = true /\ write_ok o = true
      /\ post_tasks o b w
         = (let d := {| t_id := next_oid w; t_title := trim s; t_completed := false;
                        t_createdAt := new_date o; t_updatedAt := new_date o;
                        t_v := 0 |} in
            ({| conn := conn w; tasks := tasks w ++ [d]; users := users w;
                next_oid := N.succ (next_oid w);
                trace := Driver "Task.create" :: trace w |},
             Return {| status := 201; body := task_object d |})))
  \/ (exists s, prop "title" b = JStr s /\ trim s <> []
      /\ connected w = true /\ write_ok o = false
      /\ post_tasks o b w
         = ({| conn := conn w; tasks := tasks w; users := users w;
               next_oid := N.succ (next_oid w);
               trace := Console ErrorLevel [Text "Error creating task:"; Caught StoreError]
                        :: Driver "Task.create" :: trace w |},
            Return {| status := 500; body := error_body "Failed to create task" |})).
Proof.
  destruct (prop "title" b) as [| |x|n|s|l|l] eqn:Et.
  1-2: left; unfold post_tasks; rewrite Et; reflexivity.
  - destruct x.
    + right. left. unfold post_tasks. rewrite Et.
      split; [reflexivity | split; [reflexivity | intros s' H'; discriminate]].
    + left. unfold post_tasks. rewrite Et. reflexivity.
  - destruct (n =? 0) eqn:En.
    + left. unfold post_tasks. rewrite Et. simpl. rewrite En. reflexivity.
    + right. left. unfold post_tasks. rewrite Et. simpl. rewrite En.
      split; [reflexivity | split; [reflexivity | intros s' H'; discriminate]].
  - destruct (trim s) as [|c' s'] eqn:Etr.
    + left. unfold post_tasks. rewrite Et.
      destruct s as [|c s]; [reflexivity|]. run. rewrite Etr. reflexivity.
    + assert (Hs : trim s <> []) by (rewrite Etr; discriminate).
      right. right. destruct (connected w) eqn:Hc.
      * right. destruct (write_ok o) eqn:Hw.
        -- left. exists s. split; [reflexivity|]. split; [exact Hs|].
           split; [reflexivity|]. split; [reflexivity|].
           exact (post_tasks_connected o b s w Et Hs Hc Hw).
        -- right. exists s. split; [reflexivity|]. split; [exact Hs|].
           split; [reflexivity|]. split; [reflexivity|].
           unfold post_tasks. rewrite Et.
           destruct s as [|c s]; [exfalso; apply Hs; reflexivity|]. run.
           rewrite Etr. run. rewrite state_is_connected.
           unfold connected in Hc. rewrite Hc.
           unfold TaskModel_create. run. rewrite Etr. run. rewrite Hw. reflexivity.
      * left. exists s. split; [reflexivity|]. split; [exact Hs|].
        split; [reflexivity|].
        exact (post_tasks_fallback o b s w Et Hs Hc).
  - right. left. unfold post_tasks. rewrite Et.
    split; [reflexivity | split; [reflexivity | intros s' H'; discriminate]].
  - right. left. unfold post_tasks. rewrite Et.
    split; [reflexivity | split; [reflexivity | intros s' H'; discriminate]].
Qed.

Lemma required_inv (s : option jsstring) (t : jsstring) :
  required s = Return t -> s = Some t /\ t <> [].
Proof.
  destruct s as [[|c r]|]; simpl; intros H; inversion H. split; [reflexivity | discriminate].
Qed.

Lemma find_email_none (e : jsstring) (us : list user_doc) :
  find (fun d => jsstring_eqb (u_email d) e) us = None ->
  ~ In e (map u_email us).
Proof.
  induction us as [|u r IH]; simpl; intros H; [tauto|].
  destruct (jsstring_eqb (u_email u) e) eqn:E; [discriminate|].
  intros [Hin | Hin]; [|exact (IH H Hin)].
  apply jsstring_eqb_eq in Hin. rewrite Hin in E. discriminate.
Qed.

Lemma post_users_cases (o : io) (b : json) (w : world) :
  (post_users o b w
   = (w, Return {| status := 400; body := error_body "Name and email are required" |})
   /\ (truthy (prop "name" b) = false \/ truthy (prop "email" b) = false))
  \/ (connected w = false
      /\ post_users o b w
         = (w, Return {| status := 201; body := fallback_user o b |}))
  \/ (connected w = true
      /\ exists e, castString (prop "email" b) = Return (Some e)
         /\ In e (map u_email (users w))
         /\ post_users o b w
            = (with_events [Driver "User.findOne"] w,
               Return {| status := 409; body := error_body "User already exists" |}))
  \/ (connected w = true /\ write_ok o = true
      /\ exists n e,
         castString (prop "name" b) = Return (Some n) /\ n <> []
         /\ castString (prop "email" b) = Return (Some e) /\ e <> []
         /\ ~ In e (map u_email (users w))
         /\ post_users o b w
            = (let d := {| u_id := next_oid w; u_name := n; u_email := e;
                           u_createdAt := new_date o; u_v := 0 |} in
               ({| conn := conn w; tasks := tasks w; users := users w ++ [d];
                   next_oid := N.succ (next_oid w);
                   trace := Driver "User.create" :: Driver "User.findOne" :: trace w |},
                Return {| status := 201;
                          body := PObj [ ("id", POid (u_id d));
                                         ("name", PJson (JStr (u_name d)));
                                         ("email", PJson (JStr (u_email d)));
                                         ("createdAt", PDate (u_createdAt d)) ] |})))
  \/ (connected w = true
      /\ exists err evs nid,
         post_users o b w
         = ({| conn := conn w; tasks := tasks w; users := users w; next_oid := nid;
               trace := Console ErrorLevel [Text "Error creating user:"; Caught err]
                        :: (evs ++ trace w)%list |},
            Return {| status := 500; body := error_body "Failed to create user" |})
         /\ (read_ok o = true -> write_ok o = true ->
             err = CastError \/ err = ValidationError)).
Proof.
  destruct (truthy (prop "name" b)) eqn:Hn;
    [|left; unfold post_users; rewrite Hn; split; [reflexivity | left; reflexivity]].
  destruct (truthy (prop "email" b)) eqn:He;
    [|left; unfold post_users; rewrite Hn, He; split; [reflexivity | right; reflexivity]].
  right. destruct (connected w) eqn:Hc;
    [|left; split; [reflexivity | exact (post_users_fallback o b w Hn He Hc)]].
  right.
  assert (Hstate : state_is (db_state (conn w)) "connected" = true).
  { rewrite state_is_connected. exact Hc. }
  unfold post_users. rewrite Hn, He. run. rewrite Hstate.
  unfold UserModel_findOne_email. run.
  destruct (castString (prop "email" b)) as [oe|err] eqn:Ec; run.
  2:{ right. right. split; [reflexivity|]. exists err, [Driver "User.findOne"], (next_oid w).
      split; [reflexivity|]. intros _ _.
      destruct (prop "email" b); simpl in Ec; inversion Ec; auto. }
  destruct (read_ok o) eqn:Hr; run.
  2:{ right. right. split; [reflexivity|]. exists StoreError, [Driver "User.findOne"], (next_oid w).
      split; [reflexivity|]. intros H; discriminate. }
  destruct oe as [e|].
  - destruct (find (fun d => jsstring_eqb (u_email d) e) (users w)) as [d|] eqn:Ef.
    + left. split; [reflexivity|]. exists e. split; [reflexivity|]. split; [|reflexivity].
      apply find_some in Ef as [Hin Heq]. apply jsstring_eqb_eq in Heq.
      rewrite <- Heq. apply in_map. exact Hin.
    + apply find_email_none in Ef.
      unfold UserModel_create. run. rewrite Ec. run.
      destruct (castString (prop "name" b)) as [on|err] eqn:Ecn; run.
      2:{ right. right. split; [reflexivity|].
          exists err, [Driver "User.create"; Driver "User.findOne"], (next_oid w).
          split; [reflexivity|]. intros _ _.
          destruct (prop "name" b); simpl in Ecn; inversion Ecn; auto. }
      destruct (required on) as [n'|err] eqn:Ern; run.
      2:{ right. right. split; [reflexivity|].
          exists err, [Driver "User.create"; Driver "User.findOne"], (next_oid w).
          split; [reflexivity|]. intros _ _.
          destruct on as [[|? ?]|]; simpl in Ern; inversion Ern; auto. }
      destruct e as [|ce e]; run.
      1:{ right. right. split; [reflexivity|].
          exists ValidationError, [Driver "User.create"; Driver "User.findOne"], (next_oid w).
          split; [reflexivity|]. auto. }
      apply required_inv in Ern as [-> Hn'].
      destruct (write_ok o) eqn:Hw; run.
      * right. left. split; [reflexivity|]. split; [reflexivity|].
        exists n', (ce :: e). split; [reflexivity|]. split; [exact Hn'|].
        split; [reflexivity|]. split; [discriminate|]. split; [exact Ef|]. reflexivity.
      * right. right. split; [reflexivity|].
        exists StoreError, [Driver "User.create"; Driver "User.findOne"], (N.succ (next_oid w)).
        split; [reflexivity|]. intros _ H; discriminate.
  - unfold UserModel_create. run. rewrite Ec. run.
    destruct (castString (prop "name" b)) as [on|err] eqn:Ecn; run.
    2:{ right. right. split; [reflexivity|].
        exists err, [Driver "User.create"; Driver "User.findOne"], (next_oid w).
        split; [reflexivity|]. intros _ _.
        destruct (prop "name" b); simpl in Ecn; inversion Ecn; auto. }
    destruct (required on) as [n'|err] eqn:Ern; run.
    2:{ right. right. split; [reflexivity|].
        exists err, [Driver "User.create"; Driver "User.findOne"], (next_oid w).
        split; [reflexivity|]. intros _ _.
        destruct on as [[|? ?]|]; simpl in Ern; inversion Ern; auto. }
    right. right. split; [reflexivity|].
    exists ValidationError, [Driver "User.create"; Driver "User.findOne"], (next_oid w).
    split; [reflexivity|]. auto.
Qed.

Lemma get_tasks_cases (o : io) (w : world) :
  (connected w = false
   /\ get_tasks o w = (w, Return {| status := 200; body := PArr mock_tasks |}))
  \/ (connected w = true /\ read_ok o = true
      /\ get_tasks o w
         = (with_events [Driver "Task.find"] w,
            Return {| status := 200;
                      body := PArr (map task_object (sort_desc (tasks w))) |}))
  \/ (connected w = true /\ read_ok o = false
      /\ get_tasks o w
         = (with_events [Console ErrorLevel [Text "Error fetching tasks:"; Caught StoreError];
                         Driver "Task.find"] w,
            Return {| status := 500; body := error_body "Failed to fetch tasks" |})).
Proof.
  destruct (connected w) eqn:Hc.
  - right. destruct (read_ok o) eqn:Hr.
    + left. split; [reflexivity|]. split; [reflexivity|].
      exact (get_tasks_connected o w Hc Hr).
    + right. split; [reflexivity|]. split; [reflexivity|].
      unfold get_tasks, TaskModel_find_sorted. run.
      rewrite state_is_connected. unfold connected in Hc. rewrite Hc, Hr. reflexivity.
  - left. split; [reflexivity|]. exact (get_tasks_fallback o w Hc).
Qed.

Lemma get_users_cases (o : io) (w : world) :
  (connected w = false
   /\ get_users o w = (w, Return {| status := 200; body := PArr sample_users |}))
  \/ (connected w = true /\ read_ok o = true
      /\ get_users o w
         = (with_events [Driver "User.find"] w,
            Return {| status := 200;
                      body := PArr (map (fun d => select_exclude "__v" (user_object d))
                                        (users w)) |}))
  \/ (connected w = true /\ read_ok o = false
      /\ get_users o w
         = (with_events [Console ErrorLevel [Text "Error fetching users:"; Caught StoreError];
                         Driver "User.find"] w,
            Return {| status := 500; body := error_body "Failed to fetch users" |})).
Proof.
  destruct (connected w) eqn:Hc.
  - right. destruct (read_ok o) eqn:Hr; [left | right];
      (split; [reflexivity|]); (split; [reflexivity|]);
      unfold get_users, UserModel_find_select; run;
      rewrite state_is_connected; unfold connected in Hc; rewrite Hc, Hr; reflexivity.
  - left. split; [reflexivity|]. exact (get_users_fallback o w Hc).
Qed.

Lemma get_health_eq (e : env) (o : io) (w : world) :
  get_health e o w
  = (w, Return {| status := 200;
                  body := PObj
                    [ ("status", pstr "OK");
                      ("message", pstr "Server is running!");
                      ("timestamp", PIsoString (new_date o));
                      ("environment",
                       PJson (JStr (or_str (env_NODE_ENV e) (lit "development"))));
                      ("db", db_state (conn w)) ] |}).
Proof. reflexivity. Qed.

(** What one request does to the world: the connection stays, the effects
    are added to, and either nothing is written or one document is
    appended by a create answered 201 while connected. *)
Lemma handle_effect (e : env) (o : io) (r : request) (w : world) :
  conn (fst (handle e o r w)) = conn w
  /\ (exists events, trace (fst (handle e o r w)) = (events ++ trace w)%list)
  /\ ((tasks (fst (handle e o r w)) = tasks w
       /\ users (fst (handle e o r w)) = users w)
      \/ (exists b d, r = PostTasks b /\ connected w = true
            /\ tasks (fst (handle e o r w)) = (tasks w ++ [d])%list
            /\ users (fst (handle e o r w)) = users w
            /\ title_ok d /\ t_completed d = false
            /\ t_createdAt d = t_updatedAt d
            /\ snd (handle e o r w)
               = Return {| status := 201; body := task_object d |})
      \/ (exists b d p, r = PostUsers b /\ connected w = true
            /\ users (fst (handle e o r w)) = (users w ++ [d])%list
            /\ tasks (fst (handle e o r w)) = tasks w
            /\ ~ In (u_email d) (map u_email (users w))
            /\ snd (handle e o r w) = Return {| status := 201; body := p |})).
Proof.
  destruct r as [| | |b|b]; cbn [handle].
  - rewrite get_health_eq. simpl. split; [reflexivity|].
    split; [exists []; reflexivity | left; split; reflexivity].
  - destruct (get_users_cases o w) as [[_ E] | [[_ [_ E]] | [_ [_ E]]]];
      rewrite E; unfold with_events; simpl; (split; [reflexivity|]).
    + split; [exists []; reflexivity | left; split; reflexivity].
    + split; [eexists [_]; reflexivity | left; split; reflexivity].
    + split; [eexists [_; _]; reflexivity | left; split; reflexivity].
  - destruct (get_tasks_cases o w) as [[_ E] | [[_ [_ E]] | [_ [_ E]]]];
      rewrite E; unfold with_events; simpl; (split; [reflexivity|]).
    + split; [exists []; reflexivity | left; split; reflexivity].
    + split; [eexists [_]; reflexivity | left; split; reflexivity].
    + split; [eexists [_; _]; reflexivity | left; split; reflexivity].
  - destruct (post_tasks_cases o b w)
      as [E | [[E _] | [[s [_ [_ [_ E]]]] | [[s [Et [Hs [Hc [Hw E]]]]]
                                           | [s [_ [_ [_ [_ E]]]]]]]]];
      rewrite E; unfold with_events; simpl; (split; [reflexivity|]).
    1-3: split; [exists []; reflexivity | left; split; reflexivity].
    + split; [exists [Driver "Task.create"]; reflexivity|].
      right. left. eexists b, _.
      split; [reflexivity|]. split; [exact Hc|]. split; [reflexivity|].
      split; [reflexivity|]. split; [|repeat split].
      split; simpl; [exact Hs | apply trim_trimmed].
    + split; [eexists [_; _]; reflexivity | left; split; reflexivity].
  - destruct (post_users_cases o b w)
      as [[E _] | [[_ E] | [[_ [x [_ [_ E]]]]
                           | [[Hc [_ [n [x [_ [_ [_ [_ [Hnot E]]]]]]]]]
                             | [_ [err [evs [nid [E _]]]]]]]]];
      rewrite E; unfold with_events; simpl; (split; [reflexivity|]).
    1-2: split; [exists []; reflexivity | left; split; reflexivity].
    + split; [exists [Driver "User.findOne"]; reflexivity | left; split; reflexivity].
    + split; [exists [Driver "User.create"; Driver "User.findOne"]; reflexivity|].
      right. right. eexists b, _, _.
      split; [reflexivity|]. split; [exact Hc|]. split; [reflexivity|].
      split; [reflexivity|]. split; [exact Hnot | reflexivity].
    + split; [eexists (_ :: evs); reflexivity | left; split; reflexivity].
Qed.


(* ===================================================================== *)
(** ** Sequences of requests *)
(* ===================================================================== *)






Lemma NoDup_snoc {A : Type} (l : list A) (x : A) :
  NoDup l -> ~ In x l -> NoDup (l ++ [x]).
Proof.
  induction l as [|y l IH]; simpl; intros Hnd Hx.
  - constructor; [tauto | constructor].
  - inversion Hnd; subst. constructor.
    + intros Hin. apply in_app_or in Hin as [Hin | [Heq | []]]; [tauto|].
      apply Hx. left. symmetry. exact Heq.
    + apply IH; [assumption | tauto].
Qed.

(** X3.  The lookup before the insert keeps emails unique when requests are
    served one after the other: if no two stored users share an email
    before a sequence of requests, none do after it. *)
Theorem emails_stay_unique (e : env) (rs : list (io * request)) (w : world) :
  NoDup (map u_email (users w)) ->
  NoDup (map u_email (users (serve e rs w))).
Proof.
  revert w. induction rs as [|[o r] rest IH]; intros w H; simpl; [exact H|].
  apply IH.
  destruct (handle_effect e o r w) as [_ [_ Hw]].
  destruct Hw as [[_ Hu] | [[b [d [_ [_ [_ [Hu _]]]]]] | [b [d [p [_ [_ [Hu [_ [Hnot _]]]]]]]]]];
    rewrite Hu; try exact H.
  rewrite map_app. simpl. apply NoDup_snoc; assumption.
Qed.

(** X4.  Every task found in the store after a sequence of requests was
    there before or was shaped by the schema and the handler: its title
    is non-empty and has no white space at either end, it is not
    completed, and its two timestamps are equal. *)
Theorem stored_tasks_are_well_formed
        (e : env) (rs : list (io * request)) (w : world) (d : task_doc) :
  In d (tasks (serve e rs w)) ->
  In d (tasks w)
  \/ (title_ok d /\ t_completed d = false /\ t_createdAt d = t_updatedAt d).
Proof.
  revert w. induction rs as [|[o r] rest IH]; intros w H; simpl in H; [left; exact H|].
  destruct (IH _ H) as [Hin | Hok]; [|right; exact Hok].
  destruct (handle_effect e o r w) as [_ [_ Hw]].
  destruct Hw as [[Ht _] | [[b [d' [_ [_ [Ht [_ [Hok [Hcomp [Hts _]]]]]]]]]
                           | [b [d' [p [_ [_ [_ [Ht _]]]]]]]]];
    rewrite Ht in Hin; try (left; exact Hin).
  apply in_app_or in Hin as [Hin | [<- | []]]; [left; exact Hin | right; auto].
Qed.

(* ===================================================================== *)
(** ** What a route answers *)
(* ===================================================================== *)

(** Route by route: either a response whose status is one the route can
    give, a 500 coming with an error line and nothing written, or (task
    create only) a rejection that leaves the world as it was. *)
Lemma handle_answer (e : env) (o : io) (r : request) (w : world) :
  (exists resp,
      snd (handle e o r w) = Return resp
      /\ In (status resp) (route_statuses r)
      /\ (status resp = 500 ->
          connected w = true
          /\ tasks (fst (handle e o r w)) = tasks w
          /\ users (fst (handle e o r w)) = users w
          /\ exists line rest,
               trace (fst (handle e o r w)) = Console ErrorLevel line :: rest))
  \/ (handle e o r w = (w, Throw TypeError)
      /\ exists b, r = PostTasks b /\ truthy (prop "title" b) = true
                   /\ forall s, prop "title" b <> JStr s).
Proof.
  destruct r as [| | |b|b]; cbn [handle route_statuses].
  - left. rewrite get_health_eq. eexists. split; [reflexivity|].
    split; [left; reflexivity | discriminate].
  - left. destruct (get_users_cases o w) as [[_ E] | [[_ [_ E]] | [Hc [_ E]]]];
      rewrite E; eexists; (split; [reflexivity|]); simpl.
    + split; [auto | discriminate].
    + split; [auto | discriminate].
    + split; [auto|]. intros _. repeat split; try assumption.
      eexists _, _. reflexivity.
  - left. destruct (get_tasks_cases o w) as [[_ E] | [[_ [_ E]] | [Hc [_ E]]]];
      rewrite E; eexists; (split; [reflexivity|]); simpl.
    + split; [auto | discriminate].
    + split; [auto | discriminate].
    + split; [auto|]. intros _. repeat split; try assumption.
      eexists _, _. reflexivity.
  - destruct (post_tasks_cases o b w)
      as [E | [[E [Ht Hns]] | [[s [_ [_ [_ E]]]] | [[s [_ [_ [_ [_ E]]]]]
                                                  | [s [_ [_ [Hc [_ E]]]]]]]]].
    + left. rewrite E. eexists. split; [reflexivity|]. simpl.
      split; [auto | discriminate].
    + right. split; [exact E|]. exists b. auto.
    + left. rewrite E. eexists. split; [reflexivity|]. simpl.
      split; [auto | discriminate].
    + left. rewrite E. eexists. split; [reflexivity|]. simpl.
      split; [auto | discriminate].
    + left. rewrite E. eexists. split; [reflexivity|]. simpl.
      split; [auto|]. intros _. repeat split; try assumption.
      eexists _, _. reflexivity.
  - left. destruct (post_users_cases o b w)
      as [[E _] | [[_ E] | [[_ [x [_ [_ E]]]]
                           | [[_ [_ [n [x [_ [_ [_ [_ [_ E]]]]]]]]]
                             | [Hc [err [evs [nid [E _]]]]]]]]];
      rewrite E; eexists; (split; [reflexivity|]); simpl.
    1-4: split; [auto 6 | discriminate].
    split; [auto 6|]. intros _. repeat split; try assumption.
    eexists _, _. reflexivity.
Qed.

(** X5.  Every response of a route carries one of the statuses that route
    has in its code: 200 for the health report, 200 or 500 for the lists,
    201, 400 or 500 for the task create and 201, 400, 409 or 500 for the
    user create. *)
Theorem statuses_by_route
        (e : env) (o : io) (r : request) (w : world) (resp : response) :
  snd (handle e o r w) = Return resp ->
  In (status resp) (route_statuses r).
Proof.
  intros H.
  destruct (handle_answer e o r w) as [[resp' [E [Hin _]]] | [E _]].
  - rewrite E in H. inversion H; subst. exact Hin.
  - rewrite E in H. discriminate.
Qed.


(** X7.  The only request a route leaves without an answer is a task create
    whose title is truthy and not a string (a number, [true], an array, an
    object): [title.trim] is then not a function, the handler's promise
    rejects outside its [try], and nothing is sent or changed.  Every
    other request is answered. *)
Theorem only_task_create_can_reject
        (e : env) (o : io) (r : request) (w : world) :
  (exists err, snd (handle e o r w) = Throw err)
  <-> exists b, r = PostTasks b /\ truthy (prop "title" b) = true
                /\ forall s, prop "title" b <> JStr s.
Proof.
  split.
  - intros [err H].
    destruct (handle_answer e o r w) as [[resp [E _]] | [_ Hb]]; [|exact Hb].
    rewrite E in H. discriminate.
  - intros [b [-> [Ht Hns]]]. exists TypeError. cbn [handle].
    destruct (post_tasks_cases o b w)
      as [E | [[E _] | [[s [Es _]] | [[s [Es _]] | [s [Es _]]]]]];
      try (exfalso; exact (Hns s Es)).
    + exfalso. unfold post_tasks in E. rewrite Ht in E. simpl in E.
      destruct (prop "title" b) as [| |x|n|s|l|l];
        try discriminate; try (exact (Hns s eq_refl)).
    + rewrite E. reflexivity.
Qed.

(* ===================================================================== *)
(** ** Lists while connected, and when the driver fails *)
(* ===================================================================== *)

(** X9.  Served while connected with the driver's read succeeding, the task
    list answers with every stored task exactly once (a permutation of
    the collection), each task before all tasks created earlier than it. *)
Theorem task_list_is_sorted_permutation (o : io) (w : world) :
  connected w = true -> read_ok o = true ->
  exists listed,
    snd (get_tasks o w)
    = Return {| status := 200; body := PArr (map task_object listed) |}
    /\ Permutation listed (tasks w)
    /\ StronglySorted newer_or_equal listed.
Proof.
  intros Hc Hr. exists (sort_desc (tasks w)).
  rewrite (get_tasks_connected o w Hc Hr). simpl.
  split; [reflexivity|]. split; [apply sort_desc_perm|].
  apply Sorted_StronglySorted; [|apply sort_desc_sorted].
  intros a b c Hab Hbc. unfold newer_or_equal in *. lia.
Qed.

(** X10.  Served while connected with the driver's read succeeding, the user
    list answers with the stored users in store order, one element per
    user, each reduced to _id, name, email and createdAt: the version key
    is gone and the id is under [_id], whereas the fallback users carry
    it under [id]. *)
Theorem user_list_is_stored_users (o : io) (w : world) :
  connected w = true -> read_ok o = true ->
  snd (get_users o w)
  = Return {| status := 200;
              body := PArr (map (fun d => PObj [ ("_id", POid (u_id d));
                                                 ("name", PJson (JStr (u_name d)));
                                                 ("email", PJson (JStr (u_email d)));
                                                 ("createdAt", PDate (u_createdAt d)) ])
                                (users w)) |}
  /\ Forall (fun p => field "id" p <> None /\ field "_id" p = None) sample_users.
Proof.
  intros Hc Hr. rewrite (get_users_connected o w Hc Hr). split; [reflexivity|].
  repeat constructor; discriminate.
Qed.

(** X11.  The fallback is chosen by the connection state alone, never by a
    failure: while connected, a driver whose reads fail makes both lists
    answer 500 with their generic message, not the mock data, and a
    driver whose writes fail makes a valid task create answer 500 with
    nothing stored. *)
Theorem driver_failure_is_not_fallback (o : io) (b : json) (s : jsstring) (w : world) :
  connected w = true ->
  (read_ok o = false ->
   snd (get_tasks o w)
   = Return {| status := 500; body := PObj [("error", pstr "Failed to fetch tasks")] |}
   /\ snd (get_users o w)
      = Return {| status := 500; body := PObj [("error", pstr "Failed to fetch users")] |})
  /\ (write_ok o = false -> prop "title" b = JStr s -> trim s <> [] ->
      snd (post_tasks o b w)
      = Return {| status := 500; body := PObj [("error", pstr "Failed to create task")] |}
      /\ tasks (fst (post_tasks o b w)) = tasks w).
Proof.
  intros Hc. split.
  - intros Hr. split.
    + destruct (get_tasks_cases o w) as [[Hc' _] | [[_ [Hr' _]] | [_ [_ E]]]];
        [congruence | congruence | rewrite E; reflexivity].
    + destruct (get_users_cases o w) as [[Hc' _] | [[_ [Hr' _]] | [_ [_ E]]]];
        [congruence | congruence | rewrite E; reflexivity].
  - intros Hw Et Hs.
    destruct (post_tasks_cases o b w)
      as [E | [[_ [_ Hns]] | [[s' [_ [_ [Hc' _]]]] | [[s' [_ [_ [_ [Hw' _]]]]]
                                                     | [s' [_ [_ [_ [_ E]]]]]]]]];
      try congruence.
    + exfalso. unfold post_tasks in E. rewrite Et in E.
      destruct s as [|c s]; [apply Hs; reflexivity|]. run.
      destruct (trim (c :: s)) eqn:Etr; [apply Hs; reflexivity|]. run.
      rewrite state_is_connected in E. unfold connected in Hc. rewrite Hc in E.
      unfold TaskModel_create in E. run. rewrite Etr in E. run.
      rewrite Hw in E. run. inversion E.
    + rewrite E. split; reflexivity.
Qed.

(* ===================================================================== *)
(** ** Connecting, continued *)
(* ===================================================================== *)

(** X13.  With a URI available and an attempt that succeeds against a server
    at [h:p], [connectDB] resolves with the mongoose module after one
    console line naming the host; from then on the handlers take the
    persistent branch and the health report shows readyState 1, state
    'connected', the host and the port (null for an empty host or a zero
    port). *)
Theorem connectDB_success
        (e : env) (mongoUri : option jsstring) (h : jsstring) (p : Z)
        (o : io) (w : world) :
  ~ no_uri e mongoUri ->
  let w' := fst (connectDB e mongoUri (ConnectOk h p) w) in
  snd (connectDB e mongoUri (ConnectOk h p) w) = Return (Some TheMongoose)
  /\ connected w' = true
  /\ trace w' = Console LogLevel [Text "Connected to MongoDB: "; Interp (Some h)]
                :: Driver "connect" :: trace w
  /\ tasks w' = tasks w /\ users w' = users w
  /\ db_field "readyState" (snd (get_health e o w')) = Some (pnum 1)
  /\ db_field "state" (snd (get_health e o w')) = Some (pstr "connected")
  /\ db_field "host" (snd (get_health e o w'))
     = Some (match h with [] => pnull | _ => PJson (JStr h) end)
  /\ db_field "port" (snd (get_health e o w'))
     = Some (if p =? 0 then pnull else pnum p).
Proof.
  unfold no_uri, connectDB. intros Hu.
  destruct (or_str mongoUri (MONGO_URI e)) as [|c u] eqn:Eu; [contradiction|].
  simpl. repeat split; try reflexivity.
  destruct h; reflexivity.
Qed.

(** X14.  [connectDB] calls the driver exactly once when a URI is available,
    whatever the attempt meets (there is no retry), and not at all
    otherwise; it never touches the collections. *)
Theorem connectDB_attempts_once
        (e : env) (mongoUri : option jsstring) (reply : connect_reply) (w : world) :
  driver_calls (trace (fst (connectDB e mongoUri reply w)))
  = match or_str mongoUri (MONGO_URI e) with
    | [] => driver_calls (trace w)
    | _ => "connect" :: driver_calls (trace w)
    end
  /\ tasks (fst (connectDB e mongoUri reply w)) = tasks w
  /\ users (fst (connectDB e mongoUri reply w)) = users w.
Proof.
  unfold connectDB.
  destruct (or_str mongoUri (MONGO_URI e)) as [|c u]; [repeat split|].
  destruct reply; repeat split.
Qed.

(* ===================================================================== *)
(** ** Origins, errors and startup *)
(* ===================================================================== *)

Lemma jsstring_eqb_refl (a : jsstring) : jsstring_eqb a a = true.
Proof. apply jsstring_eqb_eq. reflexivity. Qed.

Lemma set_has_add (x y : jsstring) (s : list jsstring) :
  set_has x (set_add y s) = jsstring_eqb x y || set_has x s.
Proof.
  unfold set_add, set_has. destruct (existsb (jsstring_eqb y) s) eqn:E.
  - destruct (jsstring_eqb x y) eqn:Exy; [|reflexivity].
    apply jsstring_eqb_eq in Exy. subst. rewrite E. reflexivity.
  - rewrite existsb_app. simpl. rewrite orb_false_r. apply orb_comm.
Qed.

Lemma set_has_allowedOrigins (se : server_env) (x : jsstring) :
  set_has x (allowedOrigins se) = true
  <-> x = lit "http://localhost:3000" \/ x = lit "http://localhost:3001"
      \/ (x <> [] /\ env_CLIENT_URL se = Some x).
Proof.
  unfold allowedOrigins. rewrite !set_has_add, !orb_true_iff, !jsstring_eqb_eq.
  destruct (env_CLIENT_URL se) as [[|c r]|].
  - unfold set_has. simpl. split.
    + intros [H | [H | H]]; [auto | auto | discriminate].
    + intros [H | [H | [H1 H2]]]; [auto | auto|]. inversion H2. subst. contradiction.
  - rewrite set_has_add, orb_true_iff, jsstring_eqb_eq. unfold set_has. simpl. split.
    + intros [H | [H | [H | H]]]; [auto | auto | | discriminate].
      right. right. subst. split; [discriminate | reflexivity].
    + intros [H | [H | [H1 H2]]]; [auto | auto|]. inversion H2. auto.
  - unfold set_has. simpl. split.
    + intros [H | [H | H]]; [auto | auto | discriminate].
    + intros [H | [H | [H1 H2]]]; [auto | auto | discriminate].
Qed.

(** X16.  The origin function lets a request through exactly when it has no
    origin (or an empty one), or its origin is the configured
    [CLIENT_URL], or one of the two development origins, which are
    allowed in every environment, production included; any other origin
    gets the error 'Not allowed by CORS'. *)
Theorem cors_allows_exactly (se : server_env) (origin : option jsstring) :
  (cors_origin se origin = CorsAllow
   <-> origin = None \/ origin = Some []
       \/ origin = Some (lit "http://localhost:3000")
       \/ origin = Some (lit "http://localhost:3001")
       \/ origin = env_CLIENT_URL se)
  /\ (cors_origin se origin <> CorsAllow ->
      cors_origin se origin = CorsError "Not allowed by CORS").
Proof.
  split.
  - destruct origin as [[|c r]|]; simpl.
    + split; auto.
    + pose proof (set_has_allowedOrigins se (c :: r)) as Hs.
      destruct (set_has (c :: r) (allowedOrigins se)).
      * split; [intros _|reflexivity].
        destruct (proj1 Hs eq_refl) as [H | [H | [_ H]]];
          [rewrite H | rewrite H | rewrite H]; auto 6.
      * split; [discriminate|].
        intros [H | [H | [H | [H | H]]]]; try discriminate;
          (assert (Hf : false = true); [apply Hs | discriminate]).
        -- left. injection H; intros; subst; reflexivity.
        -- right. left. injection H; intros; subst; reflexivity.
        -- right. right. split; [discriminate | auto].
    + split; auto.
  - destruct origin as [[|c r]|]; simpl; try contradiction.
    destruct (set_has (c :: r) (allowedOrigins se)); [contradiction | reflexivity].
Qed.

(** X17.  A request whose origin the origin function refuses never reaches
    its route: the error goes to the error middleware, which logs it and
    answers 500 'Something went wrong!' (not a 403), with the reason
    'Not allowed by CORS' shown only when NODE_ENV is 'development';
    nothing else in the world changes. *)
Theorem refused_origin_gets_500
        (se : server_env) (x : jsstring) (stack : option jsstring)
        (route : M response) (w : world) :
  x <> [] ->
  x <> lit "http://localhost:3000" -> x <> lit "http://localhost:3001" ->
  env_CLIENT_URL se <> Some x ->
  through_cors se (Some x) stack route w
  = (with_events [Console ErrorLevel [Text "Error:"; Interp stack]] w,
     Return {| status := 500;
               body := PObj [ ("error", pstr "Something went wrong!");
                              ("message",
                               if node_env_is (db_env se) "development"
                               then pstr "Not allowed by CORS"
                               else pstr "Internal server error") ] |}).
Proof.
  intros Hne H0 H1 Hc. unfold through_cors.
  destruct x as [|c r]; [contradiction|]. cbn [cors_origin].
  destruct (set_has (c :: r) (allowedOrigins se)) eqn:E.
  - apply set_has_allowedOrigins in E as [E | [E | [_ E]]]; contradiction.
  - unfold error_middleware. run.
    destruct (node_env_is (db_env se) "development"); reflexivity.
Qed.

(** X18.  The error middleware puts the error's own message in its answer
    when NODE_ENV is exactly 'development' and 'Internal server error'
    otherwise.  With NODE_ENV unset (or empty) the two readings of the
    variable disagree: the health report names the environment
    'development' while the middleware hides the message. *)
Theorem error_detail_only_in_development
        (e : env) (err : js_error) (o : io) (w : world) :
  (env_NODE_ENV e = Some (lit "development") ->
   snd (error_middleware e err w)
   = Return {| status := 500;
               body := PObj [ ("error", pstr "Something went wrong!");
                              ("message", PJson (JStr (err_message err))) ] |})
  /\ (env_NODE_ENV e <> Some (lit "development") ->
      snd (error_middleware e err w)
      = Return {| status := 500;
                  body := PObj [ ("error", pstr "Something went wrong!");
                                 ("message", pstr "Internal server error") ] |})
  /\ (env_NODE_ENV e = None \/ env_NODE_ENV e = Some [] ->
      (exists r, snd (get_health e o w) = Return r
                 /\ field "environment" (body r) = Some (pstr "development"))
      /\ env_NODE_ENV e <> Some (lit "development")).
Proof.
  split; [|split].
  - intros H. unfold error_middleware, node_env_is. rewrite H. reflexivity.
  - intros H.
    assert (Hf : node_env_is e "development" = false).
    { unfold node_env_is. destruct (env_NODE_ENV e) as [v|]; [|reflexivity].
      destruct (jsstring_eqb v (lit "development")) eqn:E; [|reflexivity].
      apply jsstring_eqb_eq in E. subst. contradiction. }
    unfold error_middleware. rewrite Hf. reflexivity.
  - intros [H | H]; rewrite get_health_eq, H; simpl;
      (split; [eexists; split; reflexivity | discriminate]).
Qed.


(* ===================================================================== *)
(** ** The frontend against the server *)
(* ===================================================================== *)

Lemma blank_guard_passes (s : jsstring) :
  trim s <> [] -> negb (truthy (JStr (trim s))) = false.
Proof. intros H. simpl. destruct (trim s); [contradiction | reflexivity]. Qed.

(** X20.  The form and the server agree on what a blank title is.  For a
    blank input the form shows 'Please enter a title' and sends nothing:
    the server's world is untouched.  For any other input that gets
    through, the server never answers 400 and never leaves the request
    pending: either the created task, not completed, is put first in the
    list and the input is cleared, or (connected, with the write failing)
    'Failed to create task' is shown and list and input are kept. *)
Theorem add_task_validation_agrees
        (o : io) (delivered : bool) (u : state) (w : world) :
  (trim (st_newTitle u) = [] ->
   addTask o delivered u w
   = (w, {| st_tasks := st_tasks u; st_loading := st_loading u;
            st_error := Some "Please enter a title";
            st_newTitle := st_newTitle u |}))
  /\ (trim (st_newTitle u) <> [] -> delivered = true ->
      (exists data,
          snd (post_tasks o (JObj [("title", JStr (st_newTitle u))]) w)
          = Return {| status := 201; body := data |}
          /\ field "completed" data = Some (pbool false)
          /\ snd (addTask o delivered u w)
             = {| st_tasks := data :: st_tasks u; st_loading := st_loading u;
                  st_error := None; st_newTitle := [] |})
      \/ (connected w = true /\ write_ok o = false
          /\ snd (addTask o delivered u w)
             = {| st_tasks := st_tasks u; st_loading := st_loading u;
                  st_error := Some "Failed to create task";
                  st_newTitle := st_newTitle u |})).
Proof.
  split.
  - intros H. unfold addTask. rewrite H. reflexivity.
  - intros H ->. unfold addTask, axios.
    destruct (trim (st_newTitle u)) as [|c r] eqn:Etr; [contradiction|].
    cbn [truthy negb].
    set (b := JObj [("title", JStr (st_newTitle u))]).
    destruct (post_tasks_cases o b w)
      as [E | [[_ [_ Hns]] | [[s [Es [_ [_ E]]]] | [[s [Es [_ [_ [_ E]]]]]
                                                  | [s [_ [_ [Hc [Hw E]]]]]]]]].
    + exfalso. unfold post_tasks, b in E. simpl in E.
      destruct (st_newTitle u) as [|c0 r0] eqn:Eu; [discriminate|].
      run. rewrite Etr in E. run.
      destruct (state_is (db_state (conn w)) "connected"); run.
      * unfold TaskModel_create in E. run. rewrite Etr in E. run.
        destruct (write_ok o); run; inversion E.
      * inversion E.
    + exfalso. exact (Hns (st_newTitle u) eq_refl).
    + left. rewrite E. simpl. eexists. split; [reflexivity|].
      split; reflexivity.
    + left. rewrite E. simpl. eexists. split; [reflexivity|].
      split; reflexivity.
    + right. rewrite E. simpl. auto.
Qed.

(** X21.  While connected, putting the created task first agrees with the
    server: if the list shown is the server's list, the input is not
    blank, both requests get through, the driver works and the creation
    time is later than that of every stored task, then refreshing after
    an add shows exactly the list the add left on screen. *)
Theorem add_then_refresh_agree
        (o o' : io) (u : state) (w : world) :
  connected w = true ->
  st_tasks u = map task_object (sort_desc (tasks w)) ->
  trim (st_newTitle u) <> [] ->
  write_ok o = true -> read_ok o' = true ->
  Forall (fun d => t_createdAt d < new_date o) (tasks w) ->
  exists u2,
    snd (fetchTasks o' true (snd (addTask o true u w)) (fst (addTask o true u w)))
    = Some u2
    /\ st_tasks u2 = st_tasks (snd (addTask o true u w))
    /\ List.length (st_tasks u2) = S (List.length (st_tasks u)).
Proof.
  intros Hc Hsync Hs Hw Hr Hnew.
  unfold addTask, axios. rewrite (blank_guard_passes _ Hs).
  rewrite (post_tasks_connected o (JObj [("title", JStr (st_newTitle u))])
             (st_newTitle u) w eq_refl Hs Hc Hw).
  cbn [fst snd status body Z.leb Z.ltb Z.compare Pos.compare Pos.compare_cont andb].
  unfold fetchTasks, axios.
  rewrite get_tasks_connected; [|exact Hc|exact Hr].
  cbn [fst snd status body Z.leb Z.ltb Z.compare Pos.compare Pos.compare_cont andb
       data_or_empty tasks].
  rewrite (sort_desc_snoc_newest
             {| t_id := next_oid w; t_title := trim (st_newTitle u);
                t_completed := false; t_createdAt := new_date o;
                t_updatedAt := new_date o; t_v := 0 |} (tasks w) Hnew).
  eexists. split; [reflexivity|]. cbn [st_tasks map].
  rewrite Hsync. split; [reflexivity|]. simpl. reflexivity.
Qed.

(** X22.  While not connected the add is only on screen: the form puts the
    echoed task first and clears the input, the server keeps nothing,
    and the next refresh shows the two mock tasks alone. *)
Theorem add_in_fallback_is_lost_on_refresh
        (o o' : io) (u : state) (w : world) :
  connected w = false ->
  trim (st_newTitle u) <> [] ->
  addTask o true u w
  = (w, {| st_tasks := PObj [ ("title", PJson (JStr (st_newTitle u)));
                              ("completed", pbool false) ] :: st_tasks u;
           st_loading := st_loading u; st_error := None; st_newTitle := [] |})
  /\ fetchTasks o' true (snd (addTask o true u w)) (fst (addTask o true u w))
     = (w, Some {| st_tasks := mock_tasks; st_loading := false;
                   st_error := None; st_newTitle := [] |}).
Proof.
  intros Hc Hs.
  assert (E : addTask o true u w
    = (w, {| st_tasks := PObj [ ("title", PJson (JStr (st_newTitle u)));
                                ("completed", pbool false) ] :: st_tasks u;
             st_loading := st_loading u; st_error := None; st_newTitle := [] |})).
  { unfold addTask, axios. rewrite (blank_guard_passes _ Hs).
    rewrite (post_tasks_fallback o (JObj [("title", JStr (st_newTitle u))])
               (st_newTitle u) w eq_refl Hs Hc).
    reflexivity. }
  split; [exact E|]. rewrite E. cbn [fst snd].
  unfold fetchTasks, axios. rewrite (get_tasks_fallback o' w Hc). reflexivity.
Qed.

(** X23.  A refresh always comes to an end against this server: whatever the
    connection state, the driver and the network do, [fetchTasks] leaves
    [loading] false and the input as it was, and either shows the list
    the server sent with no error, or keeps the list it had and shows
    'Failed to load tasks'. *)
Theorem fetch_tasks_settles (o : io) (delivered : bool) (u : state) (w : world) :
  exists u',
    snd (fetchTasks o delivered u w) = Some u'
    /\ st_loading u' = false
    /\ st_newTitle u' = st_newTitle u
    /\ ((st_error u' = None
         /\ snd (get_tasks o w) = Return {| status := 200; body := PArr (st_tasks u') |})
        \/ (st_error u' = Some "Failed to load tasks" /\ st_tasks u' = st_tasks u)).
Proof.
  unfold fetchTasks, axios. destruct delivered.
  - destruct (get_tasks_cases o w) as [[_ E] | [[_ [_ E]] | [_ [_ E]]]]; rewrite E;
      simpl; eexists; (split; [reflexivity|]); simpl; auto.
  - eexists. split; [reflexivity|]. simpl. auto.
Qed.

(* ===================================================================== *)
(** ** Writes *)
(* ===================================================================== *)

(** X8.  A request changes a collection only when it is a create served
    while connected and answered 201, and then it appends exactly one
    document to its own collection and leaves the other alone; the
    health report and the two lists never write. *)
Theorem writes_only_on_201 (e : env) (o : io) (r : request) (w : world) :
  tasks (fst (handle e o r w)) <> tasks w
  \/ users (fst (handle e o r w)) <> users w ->
  connected w = true
  /\ (exists p, snd (handle e o r w) = Return {| status := 201; body := p |})
  /\ ((exists b d, r = PostTasks b
         /\ tasks (fst (handle e o r w)) = (tasks w ++ [d])%list
         /\ users (fst (handle e o r w)) = users w)
      \/ (exists b d, r = PostUsers b
            /\ users (fst (handle e o r w)) = (users w ++ [d])%list
            /\ tasks (fst (handle e o r w)) = tasks w)).
Proof.
  intros Hch.
  destruct (handle_effect e o r w) as [_ [_ Hw]].
  destruct Hw as [[Ht Hu] | [[b [d [Hr [Hc [Ht [Hu [_ [_ [_ Hs]]]]]]]]]
                           | [b [d [p [Hr [Hc [Hu [Ht [_ Hs]]]]]]]]]].
  - destruct Hch as [H | H]; contradiction.
  - split; [exact Hc|]. split; [eexists; exact Hs|]. left. exists b, d. auto.
  - split; [exact Hc|]. split; [eexists; exact Hs|]. right. exists b, d. auto.
Qed.

(** X12.  Create, then list, for users: served while connected with the
    driver working, a create with a non-empty name and a new non-empty
    email answers 201, and the list served next ends with that user,
    under the id, name, email and creation time the create sent back,
    after all users stored before. *)
Theorem user_create_then_list
        (o o' : io) (b : json) (n e : jsstring) (w : world) :
  prop "name" b = JStr n -> n <> [] -> prop "email" b = JStr e -> e <> [] ->
  connected w = true -> read_ok o = true -> write_ok o = true ->
  read_ok o' = true -> ~ In e (map u_email (users w)) ->
  snd (post_users o b w)
  = Return {| status := 201;
              body := PObj [ ("id", POid (next_oid w));
                             ("name", PJson (JStr n));
                             ("email", PJson (JStr e));
                             ("createdAt", PDate (new_date o)) ] |}
  /\ snd (get_users o' (fst (post_users o b w)))
     = Return {| status := 200;
                 body := PArr
                   (map (fun d => select_exclude "__v" (user_object d)) (users w)
                    ++ [ PObj [ ("_id", POid (next_oid w));
                                ("name", PJson (JStr n));
                                ("email", PJson (JStr e));
                                ("createdAt", PDate (new_date o)) ] ])%list |}.
Proof.
  intros En Hn Ee He Hc Hr Hw Hr' Hnot.
  rewrite (post_users_created o b n e w En Hn Ee He Hc Hr Hw Hnot).
  cbn [fst snd]. split; [reflexivity|].
  rewrite get_users_connected; [|exact Hc|exact Hr'].
  cbn [users]. rewrite map_app. reflexivity.
Qed.

(** X15.  The health report answers 200 for every world and changes
    nothing; its db.state is 'connected' exactly for readyState 1 and
    'unknown' exactly for a readyState outside 0..3, and db.host and
    db.port are null exactly when the connection has no host (or an
    empty one) and no port (or port 0). *)
Theorem health_state_names (e : env) (o : io) (w : world) :
  fst (get_health e o w) = w
  /\ (exists p, snd (get_health e o w) = Return {| status := 200; body := p |})
  /\ (db_field "state" (snd (get_health e o w)) = Some (pstr "connected")
      <-> readyState (conn w) = 1)
  /\ (db_field "state" (snd (get_health e o w)) = Some (pstr "unknown")
      <-> readyState (conn w) < 0 \/ 3 < readyState (conn w))
  /\ (db_field "host" (snd (get_health e o w)) = Some pnull
      <-> host (conn w) = None \/ host (conn w) = Some [])
  /\ (db_field "port" (snd (get_health e o w)) = Some pnull
      <-> port (conn w) = None \/ port (conn w) = Some 0).
Proof.
  rewrite get_health_eq. cbn [fst snd db_field body field assoc String.eqb].
  split; [reflexivity|]. split; [eexists; reflexivity|].
  unfold db_state, state_name. simpl.
  split; [|split; [|split]].
  - destruct (readyState (conn w)) as [|p|p]; simpl;
      try (split; [discriminate | lia]).
    destruct p as [[p|p|]|[p|p|]|]; simpl;
      split; try discriminate; try lia; reflexivity.
  - destruct (readyState (conn w)) as [|p|p]; simpl;
      try (split; [discriminate | lia]); try (split; [lia | reflexivity]).
    destruct p as [[p|p|]|[p|p|]|]; simpl;
      split; try discriminate; try lia; reflexivity.
  - destruct (host (conn w)) as [[|c r]|]; simpl; split; auto;
      try discriminate; intros [H | H]; discriminate.
  - destruct (port (conn w)) as [p|]; simpl; [|split; auto].
    destruct (Z.eqb_spec p 0) as [-> | Hp]; split; auto; try discriminate.
    intros [H | H]; [discriminate | inversion H; contradiction].
Qed.

(* ===================================================================== *)
(** ** Worked instances *)
(* ===================================================================== *)



Lemma emails_stay_unique_witness :
  NoDup (map u_email
             (users (serve env_none
                           [(o_ok, PostUsers (body_user "Bob" "bob@example.com"));
                            (o_ok, PostUsers (body_user "Rob" "bob@example.com"))]
                           w_live))).
Proof.
  apply (emails_stay_unique env_none _ w_live).
  simpl. constructor; [simpl; tauto | constructor].
Defined.

Lemma stored_tasks_are_well_formed_witness :
  let d := {| t_id := 3; t_title := lit "x"; t_completed := false;
              t_createdAt := 101; t_updatedAt := 101; t_v := 0 |} in
  In d (tasks w_live)
  \/ (title_ok d /\ t_completed d = false /\ t_createdAt d = t_updatedAt d).
Proof.
  apply (stored_tasks_are_well_formed env_none
           [(o_ok, PostTasks (body_title " x"))] w_live).
  vm_compute. right. left. reflexivity.
Defined.

Lemma statuses_by_route_witness :
  In 409 (route_statuses (PostUsers (body_user "Bob" "ann@example.com"))).
Proof.
  apply (statuses_by_route env_none o_ok
           (PostUsers (body_user "Bob" "ann@example.com")) w_live
           {| status := 409; body := error_body "User already exists" |}).
  reflexivity.
Defined.


Lemma only_task_create_can_reject_witness :
  exists err,
    snd (handle env_none o_ok (PostTasks (JObj [("title", JNum 5)])) w_live)
    = Throw err.
Proof.
  apply (proj2 (only_task_create_can_reject env_none o_ok
                  (PostTasks (JObj [("title", JNum 5)])) w_live)).
  exists (JObj [("title", JNum 5)]).
  split; [reflexivity|]. split; [reflexivity|]. intros s H. discriminate.
Defined.

Lemma writes_only_on_201_witness :
  connected w_live = true
  /\ (exists p, snd (handle env_none o_ok (PostTasks (body_title " x")) w_live)
                = Return {| status := 201; body := p |})
  /\ ((exists b d, PostTasks (body_title " x") = PostTasks b
         /\ tasks (fst (handle env_none o_ok (PostTasks (body_title " x")) w_live))
            = (tasks w_live ++ [d])%list
         /\ users (fst (handle env_none o_ok (PostTasks (body_title " x")) w_live))
            = users w_live)
      \/ (exists b d, PostTasks (body_title " x") = PostUsers b
            /\ users (fst (handle env_none o_ok (PostTasks (body_title " x")) w_live))
               = (users w_live ++ [d])%list
            /\ tasks (fst (handle env_none o_ok (PostTasks (body_title " x")) w_live))
               = tasks w_live)).
Proof.
  apply (writes_only_on_201 env_none o_ok (PostTasks (body_title " x")) w_live).
  left. vm_compute. discriminate.
Defined.

Lemma task_list_is_sorted_permutation_witness :
  exists listed,
    snd (get_tasks o_ok w_live)
    = Return {| status := 200; body := PArr (map task_object listed) |}
    /\ Permutation listed (tasks w_live)
    /\ StronglySorted newer_or_equal listed.
Proof.
  exact (task_list_is_sorted_permutation o_ok w_live eq_refl eq_refl).
Defined.

Lemma user_list_is_stored_users_witness :
  snd (get_users o_ok w_live)
  = Return {| status := 200;
              body := PArr [ PObj [ ("_id", POid 2);
                                    ("name", pstr "Ann");
                                    ("email", pstr "ann@example.com");
                                    ("createdAt", PDate 40) ] ] |}.
Proof.
  exact (proj1 (user_list_is_stored_users o_ok w_live eq_refl eq_refl)).
Defined.

Lemma driver_failure_is_not_fallback_witness :
  snd (get_tasks o_down w_live)
  = Return {| status := 500; body := PObj [("error", pstr "Failed to fetch tasks")] |}
  /\ snd (get_users o_down w_live)
     = Return {| status := 500; body := PObj [("error", pstr "Failed to fetch users")] |}.
Proof.
  exact (proj1 (driver_failure_is_not_fallback o_down (body_title "x") (lit "x")
                  w_live eq_refl) eq_refl).
Defined.

Lemma user_create_then_list_witness :
  snd (get_users o_ok (fst (post_users o_ok (body_user "Bob" "bob@example.com") w_live)))
  = Return {| status := 200;
              body := PArr [ PObj [ ("_id", POid 2);
                                    ("name", pstr "Ann");
                                    ("email", pstr "ann@example.com");
                                    ("createdAt", PDate 40) ];
                             PObj [ ("_id", POid 3);
                                    ("name", pstr "Bob");
                                    ("email", pstr "bob@example.com");
                                    ("createdAt", PDate 101) ] ] |}.
Proof.
  refine (proj2 (user_create_then_list o_ok o_ok (body_user "Bob" "bob@example.com")
                   (lit "Bob") (lit "bob@example.com") w_live
                   eq_refl _ eq_refl _ eq_refl eq_refl eq_refl eq_refl _)).
  - vm_compute. discriminate.
  - vm_compute. discriminate.
  - vm_compute. intros [H | []]. discriminate.
Defined.

Lemma connectDB_success_witness :
  connected (fst (connectDB env_none (Some (lit "mongodb://db/app"))
                            (ConnectOk (lit "db") 27017) w_idle)) = true
  /\ db_field "host"
       (snd (get_health env_none o_ok
               (fst (connectDB env_none (Some (lit "mongodb://db/app"))
                               (ConnectOk (lit "db") 27017) w_idle))))
     = Some (pstr "db").
Proof.
  assert (Hu : ~ no_uri env_none (Some (lit "mongodb://db/app"))).
  { unfold no_uri. vm_compute. discriminate. }
  pose proof (connectDB_success env_none (Some (lit "mongodb://db/app"))
                (lit "db") 27017 o_ok w_idle Hu) as H.
  split; [exact (proj1 (proj2 H))|].
  exact (proj1 (proj2 (proj2 (proj2 (proj2 (proj2 (proj2 (proj2 H)))))))).
Defined.

Lemma health_state_names_witness :
  db_field "state" (snd (get_health env_none o_ok w_live)) = Some (pstr "connected").
Proof.
  apply (proj2 (proj1 (proj2 (proj2 (health_state_names env_none o_ok w_live))))).
  reflexivity.
Defined.

Lemma cors_allows_exactly_witness :
  cors_origin se_client (Some (lit "https://app.example.com")) = CorsAllow.
Proof.
  apply (proj2 (proj1 (cors_allows_exactly se_client
                         (Some (lit "https://app.example.com"))))).
  right. right. right. right. reflexivity.
Defined.

Lemma refused_origin_gets_500_witness :
  snd (through_cors se_client (Some (lit "https://evil.example")) None
         (handle env_none o_ok GetTasks) w_live)
  = Return {| status := 500;
              body := PObj [ ("error", pstr "Something went wrong!");
                             ("message", pstr "Internal server error") ] |}.
Proof.
  rewrite (refused_origin_gets_500 se_client (lit "https://evil.example") None
             (handle env_none o_ok GetTasks) w_live).
  - reflexivity.
  - vm_compute. discriminate.
  - vm_compute. discriminate.
  - vm_compute. discriminate.
  - vm_compute. discriminate.
Defined.

Lemma error_detail_only_in_development_witness :
  (exists r, snd (get_health env_none o_ok w_idle) = Return r
             /\ field "environment" (body r) = Some (pstr "development"))
  /\ snd (error_middleware env_none
            {| err_message := lit "boom"; err_stack := None |} w_idle)
     = Return {| status := 500;
                 body := PObj [ ("error", pstr "Something went wrong!");
                                ("message", pstr "Internal server error") ] |}.
Proof.
  pose proof (error_detail_only_in_development env_none
                {| err_message := lit "boom"; err_stack := None |} o_ok w_idle) as H.
  split.
  - exact (proj1 (proj2 (proj2 H) (or_introl eq_refl))).
  - apply (proj1 (proj2 H)). simpl. discriminate.
Defined.

Lemma add_task_validation_agrees_witness :
  addTask o_ok true (u_start "  ") w_live
  = (w_live, {| st_tasks := []; st_loading := false;
                st_error := Some "Please enter a title";
                st_newTitle := lit "  " |}).
Proof.
  exact (proj1 (add_task_validation_agrees o_ok true (u_start "  ") w_live) eq_refl).
Defined.

Lemma add_then_refresh_agree_witness :
  exists u2,
    snd (fetchTasks o_ok true (snd (addTask o_ok true (u_live " x") w_live))
                    (fst (addTask o_ok true (u_live " x") w_live)))
    = Some u2
    /\ st_tasks u2 = st_tasks (snd (addTask o_ok true (u_live " x") w_live))
    /\ List.length (st_tasks u2) = S (List.length (st_tasks (u_live " x"))).
Proof.
  refine (add_then_refresh_agree o_ok o_ok (u_live " x") w_live
            eq_refl eq_refl _ eq_refl eq_refl _).
  - vm_compute. discriminate.
  - repeat constructor.
Defined.

Lemma add_in_fallback_is_lost_on_refresh_witness :
  fetchTasks o_ok true (snd (addTask o_ok true (u_start "x") w_idle))
             (fst (addTask o_ok true (u_start "x") w_idle))
  = (w_idle, Some {| st_tasks := mock_tasks; st_loading := false;
                     st_error := None; st_newTitle := [] |}).
Proof.
  refine (proj2 (add_in_fallback_is_lost_on_refresh o_ok o_ok (u_start "x") w_idle
                   eq_refl _)).
  vm_compute. discriminate.
Defined.
